(** * The quote book and opportunity scanner of [phase3_advanced_arbitrage_final.py]

    A shallow embedding of the class [ArbitrageAnalyzer]: the ingest method
    [update_price_data], the four scans and [generate_arbitrage_signal].

    Python's [float] is IEEE 754 binary64, which is Rocq's primitive [float];
    a [dict] is an insertion-ordered association list; a [try]/[except] around
    a loop is a list of per-iteration outcomes cut at the first exception. *)

From Stdlib Require Import ZArith List String Ascii Bool Lia Floats.
Import ListNotations.

Set Warnings "-inexact-float".
Local Open Scope string_scope.
Local Open Scope list_scope.

(** ** Python built-ins used by the analyzer *)

Module Py.

(** *** Exceptions *)

Inductive exn := ZeroDivisionError | KeyError.

Inductive result (A : Type) : Type :=
| Ok (a : A)
| Raise (e : exn).
Arguments Ok {A} a.
Arguments Raise {A} e.

Definition bind {A B} (r : result A) (k : A -> result B) : result B :=
  match r with
  | Ok a => k a
  | Raise e => Raise e
  end.

(** *** [dict]: keys in insertion order, assignment to a present key keeps
    its position *)

Definition dict (V : Type) := list (string * V).

Fixpoint dict_get {V} (d : dict V) (k : string) : option V :=
  match d with
  | [] => None
  | (k', v) :: r => if String.eqb k' k then Some v else dict_get r k
  end.

Fixpoint dict_set {V} (d : dict V) (k : string) (v : V) : dict V :=
  match d with
  | [] => [(k, v)]
  | (k', v') :: r =>
      if String.eqb k' k then (k', v) :: r else (k', v') :: dict_set r k v
  end.

(** [k in d] *)
Definition dict_mem {V} (d : dict V) (k : string) : bool :=
  match dict_get d k with Some _ => true | None => false end.

(** [d.get(k, default)] *)
Definition dict_get_default {V} (d : dict V) (k : string) (default : V) : V :=
  match dict_get d k with Some v => v | None => default end.

(** [d[k]] *)
Definition dict_getitem {V} (d : dict V) (k : string) : result V :=
  match dict_get d k with Some v => Ok v | None => Raise KeyError end.

(** [list(d.keys())] *)
Definition dict_keys {V} (d : dict V) : list string := map fst d.

(** *** [str] *)

(** [s.endswith(suffix)]: some tail of [s] is [suffix]. *)
Fixpoint str_endswith (s suffix : string) : bool :=
  String.eqb s suffix ||
  match s with
  | EmptyString => false
  | String _ s' => str_endswith s' suffix
  end.

(** [s.replace(old, new)] for a non-empty [old]: occurrences are replaced
    from the left and do not overlap; [skip] counts the characters of an
    occurrence still to be dropped. *)
Fixpoint str_replace_from (skip : nat) (s old new : string) : string :=
  match s with
  | EmptyString => EmptyString
  | String c s' =>
      match skip with
      | S k => str_replace_from k s' old new
      | O =>
          if String.prefix old s
          then new ++ str_replace_from (String.length old - 1) s' old new
          else String c (str_replace_from 0 s' old new)
      end
  end.

(** With an empty [old], Python puts [new] around every character. *)
Fixpoint str_interleave (s new : string) : string :=
  match s with
  | EmptyString => new
  | String c s' => new ++ String c (str_interleave s' new)
  end.

Definition str_replace (s old new : string) : string :=
  match old with
  | EmptyString => str_interleave s new
  | _ => str_replace_from 0 s old new
  end.

(** *** [float] *)

Local Open Scope float_scope.

(** [x / y] on Python floats raises on a zero divisor (of either sign). *)
Definition truediv (x y : float) : result float :=
  if is_zero y then Raise ZeroDivisionError else Ok (x / y).

(** [min(a, b)]: the first argument unless the second is smaller. *)
Definition min2 (a b : float) : float := if b <? a then b else a.

(** [min(a, b, c)] *)
Definition min3 (a b c : float) : float := min2 (min2 a b) c.

(** [max(l, key=key)] on a non-empty list [x :: l]: the running maximum is
    replaced only by an item whose key is strictly greater. *)
Fixpoint max_from {A} (key : A -> float) (cur : A) (l : list A) : A :=
  match l with
  | [] => cur
  | x :: r => if key cur <? key x then max_from key x r else max_from key cur r
  end.

(** *** slices *)

(** [l[-n:]] for [n > 0] *)
Definition last_n {A} (n : nat) (l : list A) : list A :=
  skipn (List.length l - n)%nat l.

(** *** the outcome of a loop inside [try]: every iteration either appends
    an item, appends nothing, or raises, which ends the loop with the items
    appended so far *)

Fixpoint collect {A} (steps : list (result (option A))) : list A :=
  match steps with
  | [] => []
  | Raise _ :: _ => []
  | Ok None :: r => collect r
  | Ok (Some a) :: r => a :: collect r
  end.

End Py.

Notation "x <- r ;; k" := (Py.bind r (fun x => k))
  (at level 61, r at next level, right associativity).

(** ** NumPy

    [np.mean] and [np.std] belong to NumPy, not to this repository: the
    analyzer is parameterised by them.  Division of arrays and of NumPy
    scalars follows IEEE 754 and never raises. *)

Class NumPy := {
  np_mean : list float -> float;
  np_std : list float -> float
}.

(** [np.array(a) / np.array(b)] on arrays of one length *)
Definition np_divide (a b : list float) : list float :=
  map (fun p => (fst p / snd p)%float) (combine a b).

(** ** Data classes *)

(** [datetime.now()]: the reading of the wall clock, in microseconds. *)
Definition datetime := Z.
Bind Scope Z_scope with datetime.

Module ArbitrageOpportunity.
Record t := mk {
  type : string;
  symbol : string;
  buy_price : float;
  sell_price : float;
  buy_exchange : string;
  sell_exchange : string;
  spread : float;
  profit_percent : float;
  volume : float;
  timestamp : datetime;
  confidence : float
}.
End ArbitrageOpportunity.

Module ExchangePrice.
Record t := mk {
  exchange : string;
  symbol : string;
  bid_price : float;
  ask_price : float;
  volume : float;
  timestamp : datetime
}.
End ExchangePrice.

(** An entry of [price_history], a dict literal with these six keys. *)
Module HistoryEntry.
Record t := mk {
  timestamp : datetime;
  bid : float;
  ask : float;
  mid : float;
  spread : float;
  volume : float
}.
End HistoryEntry.

(** ** The analyzer *)

(** The attributes of [ArbitrageAnalyzer] that the methods read or assign.
    ([executed_trades], [correlation_matrix] and [cointegration_pairs] are
    created empty by [__init__] and never touched again.) *)
Record ArbitrageAnalyzer := {
  exchanges : list string;
  trading_fees : Py.dict float;
  withdrawal_fees : Py.dict float;
  min_profit_threshold : Py.dict float;
  price_data : Py.dict (Py.dict ExchangePrice.t);
  price_history : Py.dict (Py.dict (list HistoryEntry.t));
  arbitrage_opportunities : list ArbitrageOpportunity.t
}.

(** [__init__] *)
Definition ArbitrageAnalyzer_init : ArbitrageAnalyzer := {|
  exchanges := ["OKX"; "Binance"; "Bybit"; "Upbit"; "Bithumb"; "Coinone"];
  trading_fees :=
    [("OKX", 0.001); ("Binance", 0.001); ("Bybit", 0.001);
     ("Upbit", 0.0005); ("Bithumb", 0.0025); ("Coinone", 0.002)]%float;
  withdrawal_fees := [("BTC", 0.0005); ("ETH", 0.005); ("USDT", 1.0)]%float;
  min_profit_threshold :=
    [("cross_exchange", 0.005); ("triangular", 0.002);
     ("statistical", 0.003); ("future_spot", 0.001)]%float;
  price_data := [];
  price_history := [];
  arbitrage_opportunities := []
|}.

(** [self.price_data[exchange][symbol]] when both keys are present: the
    latest quote of the key. *)
Definition latest (self : ArbitrageAnalyzer) (exchange symbol : string)
  : option ExchangePrice.t :=
  match Py.dict_get (price_data self) exchange with
  | Some prices => Py.dict_get prices symbol
  | None => None
  end.

(** [self.price_history[exchange][symbol]] when both keys are present. *)
Definition history_opt (self : ArbitrageAnalyzer) (exchange symbol : string)
  : option (list HistoryEntry.t) :=
  match Py.dict_get (price_history self) exchange with
  | Some by_symbol => Py.dict_get by_symbol symbol
  | None => None
  end.

(** The history of a key, empty when the key is unknown. *)
Definition history (self : ArbitrageAnalyzer) (exchange symbol : string)
  : list HistoryEntry.t :=
  match history_opt self exchange symbol with
  | Some h => h
  | None => []
  end.

(** The dict appended to the history by [update_price_data]. *)
Definition history_entry (current_time : datetime) (bid ask volume : float)
  : HistoryEntry.t :=
  {| HistoryEntry.timestamp := current_time;
     HistoryEntry.bid := bid;
     HistoryEntry.ask := ask;
     HistoryEntry.mid := ((bid + ask) / 2)%float;
     HistoryEntry.spread := (ask - bid)%float;
     HistoryEntry.volume := volume |}.

(** [update_price_data]; [now] is what [datetime.now()] returns.  Nothing in
    the body can raise on floats, so the [except] branch is never taken. *)
Definition update_price_data (self : ArbitrageAnalyzer) (now : datetime)
    (exchange symbol : string) (bid ask volume : float) : ArbitrageAnalyzer :=
  let current_time := now in
  let price_data1 :=
    if Py.dict_mem (price_data self) exchange then price_data self
    else Py.dict_set (price_data self) exchange [] in
  let price_data2 :=
    Py.dict_set price_data1 exchange
      (Py.dict_set (Py.dict_get_default price_data1 exchange []) symbol
         {| ExchangePrice.exchange := exchange;
            ExchangePrice.symbol := symbol;
            ExchangePrice.bid_price := bid;
            ExchangePrice.ask_price := ask;
            ExchangePrice.volume := volume;
            ExchangePrice.timestamp := current_time |}) in
  let price_history1 :=
    if Py.dict_mem (price_history self) exchange then price_history self
    else Py.dict_set (price_history self) exchange [] in
  let by_symbol1 := Py.dict_get_default price_history1 exchange [] in
  let by_symbol2 :=
    if Py.dict_mem by_symbol1 symbol then by_symbol1
    else Py.dict_set by_symbol1 symbol [] in
  let appended :=
    Py.dict_get_default by_symbol2 symbol []
      ++ [history_entry current_time bid ask volume] in
  let kept :=
    if (1000 <? List.length appended)%nat then Py.last_n 1000 appended
    else appended in
  let price_history2 :=
    Py.dict_set price_history1 exchange (Py.dict_set by_symbol2 symbol kept) in
  {| exchanges := exchanges self;
     trading_fees := trading_fees self;
     withdrawal_fees := withdrawal_fees self;
     min_profit_threshold := min_profit_threshold self;
     price_data := price_data2;
     price_history := price_history2;
     arbitrage_opportunities := arbitrage_opportunities self |}.

(** A quote as the ingest call receives it. *)
Record Update := {
  u_now : datetime;
  u_exchange : string;
  u_symbol : string;
  u_bid : float;
  u_ask : float;
  u_volume : float
}.

Definition apply_update (self : ArbitrageAnalyzer) (u : Update) : ArbitrageAnalyzer :=
  update_price_data self (u_now u) (u_exchange u) (u_symbol u)
    (u_bid u) (u_ask u) (u_volume u).

(** A sequence of ingest calls, oldest first. *)
Definition run_updates (self : ArbitrageAnalyzer) (us : list Update) : ArbitrageAnalyzer :=
  fold_left apply_update us self.

Definition for_key (exchange symbol : string) (u : Update) : bool :=
  String.eqb (u_exchange u) exchange && String.eqb (u_symbol u) symbol.

Definition entry_of (u : Update) : HistoryEntry.t :=
  history_entry (u_now u) (u_bid u) (u_ask u) (u_volume u).

(** ** Cross-exchange scan *)

(** [self.trading_fees.get(exchange, 0.001)] *)
Definition fee_rate (self : ArbitrageAnalyzer) (exchange : string) : float :=
  Py.dict_get_default (trading_fees self) exchange 0.001%float.

(** [buy_price + buy_fee] with [buy_fee = buy_price * rate] *)
Definition net_buy_price (self : ArbitrageAnalyzer) (buy_exchange : string)
    (buy_price : float) : float :=
  (buy_price + buy_price * fee_rate self buy_exchange)%float.

(** [sell_price - sell_fee] with [sell_fee = sell_price * rate] *)
Definition net_sell_price (self : ArbitrageAnalyzer) (sell_exchange : string)
    (sell_price : float) : float :=
  (sell_price - sell_price * fee_rate self sell_exchange)%float.

(** The dict [exchange_prices]: the quotes of [symbol], keyed by exchange in
    the order of [self.exchanges]. *)
Definition add_quote (self : ArbitrageAnalyzer) (symbol : string)
    (acc : Py.dict ExchangePrice.t) (exchange : string) : Py.dict ExchangePrice.t :=
  match latest self exchange symbol with
  | Some info => Py.dict_set acc exchange info
  | None => acc
  end.

Definition exchange_prices (self : ArbitrageAnalyzer) (symbol : string)
  : Py.dict ExchangePrice.t :=
  fold_left (add_quote self symbol) (exchanges self) [].

(** The body of the inner loop for one (buy, sell) pair of items.  Here and
    in the other scans [now] stands for what [datetime.now()] returns. *)
Definition cross_exchange_step (self : ArbitrageAnalyzer) (now : datetime)
    (symbol : string) (buy sell : string * ExchangePrice.t)
  : Py.result (option ArbitrageOpportunity.t) :=
  let '(buy_exchange, buy_info) := buy in
  let '(sell_exchange, sell_info) := sell in
  if String.eqb buy_exchange sell_exchange then Py.Ok None
  else
    let buy_price := ExchangePrice.ask_price buy_info in
    let sell_price := ExchangePrice.bid_price sell_info in
    let net_buy := net_buy_price self buy_exchange buy_price in
    let net_sell := net_sell_price self sell_exchange sell_price in
    if (net_buy <? net_sell)%float then
      let spread := (net_sell - net_buy)%float in
      ratio <- Py.truediv spread net_buy ;;
      let profit_percent := (ratio * 100)%float in
      threshold <- Py.dict_getitem (min_profit_threshold self) "cross_exchange" ;;
      if (threshold * 100 <=? profit_percent)%float then
        Py.Ok (Some
          {| ArbitrageOpportunity.type := "cross_exchange";
             ArbitrageOpportunity.symbol := symbol;
             ArbitrageOpportunity.buy_price := buy_price;
             ArbitrageOpportunity.sell_price := sell_price;
             ArbitrageOpportunity.buy_exchange := buy_exchange;
             ArbitrageOpportunity.sell_exchange := sell_exchange;
             ArbitrageOpportunity.spread := spread;
             ArbitrageOpportunity.profit_percent := profit_percent;
             ArbitrageOpportunity.volume :=
               Py.min2 (ExchangePrice.volume buy_info) (ExchangePrice.volume sell_info);
             ArbitrageOpportunity.timestamp := now;
             ArbitrageOpportunity.confidence :=
               Py.min2 0.9%float (profit_percent / 2)%float |})
      else Py.Ok None
    else Py.Ok None.

Definition find_cross_exchange_arbitrage (self : ArbitrageAnalyzer)
    (now : datetime) (symbol : string) : list ArbitrageOpportunity.t :=
  let prices := exchange_prices self symbol in
  if (List.length prices <? 2)%nat then []
  else
    Py.collect
      (flat_map
         (fun buy => map (fun sell => cross_exchange_step self now symbol buy sell) prices)
         prices).

(** ** Triangular scan *)

(** The body of the inner loop for [symbol1], [symbol2], both known to end
    with [-base_currency]. *)
Definition triangular_step (self : ArbitrageAnalyzer) (now : datetime)
    (base_currency : string) (prices : Py.dict ExchangePrice.t)
    (symbol1 symbol2 : string) : Py.result (option ArbitrageOpportunity.t) :=
  let exchange := "OKX" in
  let currency1 := Py.str_replace symbol1 ("-" ++ base_currency) "" in
  let currency2 := Py.str_replace symbol2 ("-" ++ base_currency) "" in
  if String.eqb currency1 currency2 then Py.Ok None
  else
    let cross_symbol1 := (currency1 ++ "-" ++ currency2)%string in
    let cross_symbol2 := (currency2 ++ "-" ++ currency1)%string in
    let chosen :=
      if Py.dict_mem prices cross_symbol1 then Some (cross_symbol1, true)
      else if Py.dict_mem prices cross_symbol2 then Some (cross_symbol2, false)
      else None in
    match chosen with
    | None => Py.Ok None
    | Some (cross_symbol, direct) =>
        price1 <- Py.dict_getitem prices symbol1 ;;
        price2 <- Py.dict_getitem prices symbol2 ;;
        cross_price <- Py.dict_getitem prices cross_symbol ;;
        if direct then
          theoretical_cross <-
            Py.truediv (ExchangePrice.bid_price price1) (ExchangePrice.ask_price price2) ;;
          let actual_cross := ExchangePrice.ask_price cross_price in
          if (actual_cross * 1.001 <? theoretical_cross)%float then
            deviation <- Py.truediv (theoretical_cross - actual_cross)%float actual_cross ;;
            let profit_percent := (deviation * 100)%float in
            threshold <- Py.dict_getitem (min_profit_threshold self) "triangular" ;;
            if (threshold * 100 <=? profit_percent)%float then
              Py.Ok (Some
                {| ArbitrageOpportunity.type := "triangular";
                   ArbitrageOpportunity.symbol :=
                     (currency1 ++ "-" ++ currency2 ++ "-" ++ base_currency)%string;
                   ArbitrageOpportunity.buy_price := actual_cross;
                   ArbitrageOpportunity.sell_price := theoretical_cross;
                   ArbitrageOpportunity.buy_exchange := exchange;
                   ArbitrageOpportunity.sell_exchange := exchange;
                   ArbitrageOpportunity.spread := (theoretical_cross - actual_cross)%float;
                   ArbitrageOpportunity.profit_percent := profit_percent;
                   ArbitrageOpportunity.volume :=
                     Py.min3 (ExchangePrice.volume price1) (ExchangePrice.volume price2)
                       (ExchangePrice.volume cross_price);
                   ArbitrageOpportunity.timestamp := now;
                   ArbitrageOpportunity.confidence := 0.8%float |})
            else Py.Ok None
          else Py.Ok None
        else Py.Ok None
    end.

(** The iterations of the two nested loops, in order; a symbol that does not
    end with [-base_currency] is skipped by [continue]. *)
Definition triangular_steps (self : ArbitrageAnalyzer) (now : datetime)
    (base_currency : string) (prices : Py.dict ExchangePrice.t)
  : list (Py.result (option ArbitrageOpportunity.t)) :=
  let available_symbols := Py.dict_keys prices in
  let quoted_in_base symbol := Py.str_endswith symbol ("-" ++ base_currency) in
  flat_map
    (fun symbol1 =>
       if quoted_in_base symbol1 then
         flat_map
           (fun symbol2 =>
              if quoted_in_base symbol2
              then [triangular_step self now base_currency prices symbol1 symbol2]
              else [])
           available_symbols
       else [])
    available_symbols.

Definition find_triangular_arbitrage (self : ArbitrageAnalyzer) (now : datetime)
    (base_currency : string) : list ArbitrageOpportunity.t :=
  let exchange := "OKX" in
  match Py.dict_get (price_data self) exchange with
  | None => []
  | Some prices => Py.collect (triangular_steps self now base_currency prices)
  end.

(** ** Future-spot scan *)

Definition future_spot_step (self : ArbitrageAnalyzer) (now : datetime)
    (symbol : string) : Py.result (option ArbitrageOpportunity.t) :=
  let spot_symbol := symbol in
  let future_symbol := Py.str_replace symbol "-USDT" "-USDT-SWAP" in
  let exchange := "OKX" in
  match latest self exchange spot_symbol, latest self exchange future_symbol with
  | Some spot_price, Some future_price =>
      let spot_ask := ExchangePrice.ask_price spot_price in
      let spread := (ExchangePrice.bid_price future_price - spot_ask)%float in
      threshold <- Py.dict_getitem (min_profit_threshold self) "future_spot" ;;
      if (spot_ask * threshold <? abs spread)%float then
        ratio <- Py.truediv (abs spread) spot_ask ;;
        let profit_percent := (ratio * 100)%float in
        let '(buy_price, sell_price) :=
          if (0 <? spread)%float
          then (spot_ask, ExchangePrice.bid_price future_price)
          else (ExchangePrice.ask_price future_price, ExchangePrice.bid_price spot_price) in
        Py.Ok (Some
          {| ArbitrageOpportunity.type := "future_spot";
             ArbitrageOpportunity.symbol := (spot_symbol ++ "_" ++ future_symbol)%string;
             ArbitrageOpportunity.buy_price := buy_price;
             ArbitrageOpportunity.sell_price := sell_price;
             ArbitrageOpportunity.buy_exchange := exchange;
             ArbitrageOpportunity.sell_exchange := exchange;
             ArbitrageOpportunity.spread := abs spread;
             ArbitrageOpportunity.profit_percent := profit_percent;
             ArbitrageOpportunity.volume :=
               Py.min2 (ExchangePrice.volume spot_price) (ExchangePrice.volume future_price);
             ArbitrageOpportunity.timestamp := now;
             ArbitrageOpportunity.confidence := 0.85%float |})
      else Py.Ok None
  | _, _ => Py.Ok None
  end.

Definition find_future_spot_arbitrage (self : ArbitrageAnalyzer) (now : datetime)
    (symbol : string) : list ArbitrageOpportunity.t :=
  Py.collect [future_spot_step self now symbol].

(** ** Statistical scan and the signal *)

(** [for i, symbol1 in enumerate(symbols): for symbol2 in symbols[i+1:]] *)
Fixpoint later_pairs (symbols : list string) : list (string * string) :=
  match symbols with
  | [] => []
  | symbol1 :: rest => map (pair symbol1) rest ++ later_pairs rest
  end.

(** The array [ratio] of the last 50 mid prices of two histories. *)
Definition ratio_series (hist1 hist2 : list HistoryEntry.t) : list float :=
  let prices1 := map HistoryEntry.mid (Py.last_n 50 hist1) in
  let prices2 := map HistoryEntry.mid (Py.last_n 50 hist2) in
  np_divide prices1 prices2.

(** The dict returned by [generate_arbitrage_signal]. *)
Record CountsByType := {
  n_cross_exchange : nat;
  n_triangular : nat;
  n_statistical : nat;
  n_future_spot : nat
}.

Record Signal := {
  s_grade : string;
  s_type : string;
  s_symbol : string;
  s_profit_percent : float;
  s_spread : float;
  s_buy_exchange : string;
  s_sell_exchange : string;
  s_buy_price : float;
  s_sell_price : float;
  s_volume : float;
  s_confidence : float;
  s_total_opportunities : nat;
  s_opportunities_by_type : CountsByType
}.

Definition grade_of (profit : float) : string :=
  if (10.0 <=? profit)%float then "ARBITRAGE_GODLIKE"
  else if (5.0 <=? profit)%float then "ARBITRAGE_LEGENDARY"
  else if (1.0 <=? profit)%float then "ARBITRAGE_MEGA"
  else if (0.5 <=? profit)%float then "ARBITRAGE_ULTRA"
  else "ARBITRAGE_NORMAL".

(** [len([op for op in all_opportunities if op.type == kind])] *)
Definition count_type (kind : string) (all : list ArbitrageOpportunity.t) : nat :=
  List.length (filter (fun op => String.eqb (ArbitrageOpportunity.type op) kind) all).

Definition counts_by_type (all : list ArbitrageOpportunity.t) : CountsByType :=
  {| n_cross_exchange := count_type "cross_exchange" all;
     n_triangular := count_type "triangular" all;
     n_statistical := count_type "statistical" all;
     n_future_spot := count_type "future_spot" all |}.

Definition signal_of (best : ArbitrageOpportunity.t)
    (all : list ArbitrageOpportunity.t) : Signal :=
  {| s_grade := grade_of (ArbitrageOpportunity.profit_percent best);
     s_type := ArbitrageOpportunity.type best;
     s_symbol := ArbitrageOpportunity.symbol best;
     s_profit_percent := ArbitrageOpportunity.profit_percent best;
     s_spread := ArbitrageOpportunity.spread best;
     s_buy_exchange := ArbitrageOpportunity.buy_exchange best;
     s_sell_exchange := ArbitrageOpportunity.sell_exchange best;
     s_buy_price := ArbitrageOpportunity.buy_price best;
     s_sell_price := ArbitrageOpportunity.sell_price best;
     s_volume := ArbitrageOpportunity.volume best;
     s_confidence := ArbitrageOpportunity.confidence best;
     s_total_opportunities := List.length all;
     s_opportunities_by_type := counts_by_type all |}.

(** A call of the analyzer: a quote pushed by the feed or a scan. *)
Inductive Call :=
| Ingest (u : Update)
| Scan (now : datetime).

(** The quotes pushed by a sequence of calls, oldest first. *)
Definition ingested (calls : list Call) : list Update :=
  flat_map (fun c => match c with Ingest u => [u] | Scan _ => [] end) calls.

Section WithNumPy.
Context {np : NumPy}.

(** The body of the innermost loop for one exchange.  [current_ratio] is a
    quotient of Python floats and may raise; [z_score] and [profit_percent]
    are NumPy scalars. *)
Definition statistical_step (self : ArbitrageAnalyzer) (now : datetime)
    (symbol1 symbol2 exchange : string)
  : Py.result (option ArbitrageOpportunity.t) :=
  match latest self exchange symbol1, latest self exchange symbol2 with
  | Some price1, Some price2 =>
      match history_opt self exchange symbol1, history_opt self exchange symbol2 with
      | Some hist1, Some hist2 =>
          if ((50 <? List.length hist1)%nat && (50 <? List.length hist2)%nat)%bool then
            let ratio := ratio_series hist1 hist2 in
            let mean_ratio := np_mean ratio in
            let std_ratio := np_std ratio in
            current_ratio <-
              Py.truediv (ExchangePrice.bid_price price1) (ExchangePrice.ask_price price2) ;;
            let z_score := ((current_ratio - mean_ratio) / std_ratio)%float in
            if (2 <? abs z_score)%float then
              let profit_percent :=
                (abs z_score * std_ratio / current_ratio * 100)%float in
              threshold <- Py.dict_getitem (min_profit_threshold self) "statistical" ;;
              if (threshold * 100 <=? profit_percent)%float then
                let '(buy_symbol, sell_symbol, buy_price, sell_price) :=
                  if (0 <? z_score)%float
                  then (symbol2, symbol1,
                        ExchangePrice.ask_price price2, ExchangePrice.bid_price price1)
                  else (symbol1, symbol2,
                        ExchangePrice.ask_price price1, ExchangePrice.bid_price price2) in
                Py.Ok (Some
                  {| ArbitrageOpportunity.type := "statistical";
                     ArbitrageOpportunity.symbol :=
                       (buy_symbol ++ "_" ++ sell_symbol)%string;
                     ArbitrageOpportunity.buy_price := buy_price;
                     ArbitrageOpportunity.sell_price := sell_price;
                     ArbitrageOpportunity.buy_exchange := exchange;
                     ArbitrageOpportunity.sell_exchange := exchange;
                     ArbitrageOpportunity.spread := abs (sell_price - buy_price)%float;
                     ArbitrageOpportunity.profit_percent := profit_percent;
                     ArbitrageOpportunity.volume :=
                       Py.min2 (ExchangePrice.volume price1) (ExchangePrice.volume price2);
                     ArbitrageOpportunity.timestamp := now;
                     ArbitrageOpportunity.confidence :=
                       Py.min2 0.9%float (abs z_score / 3)%float |})
              else Py.Ok None
            else Py.Ok None
          else Py.Ok None
      | _, _ => Py.Ok None
      end
  | _, _ => Py.Ok None
  end.

Definition find_statistical_arbitrage (self : ArbitrageAnalyzer) (now : datetime)
  : list ArbitrageOpportunity.t :=
  let symbols := ["BTC-USDT"; "ETH-USDT"] in
  if (List.length symbols <? 2)%nat then []
  else
    Py.collect
      (flat_map
         (fun pair =>
            map (fun exchange => statistical_step self now (fst pair) (snd pair) exchange)
              (exchanges self))
         (later_pairs symbols)).

(** The list [all_opportunities] built by [generate_arbitrage_signal]. *)
Definition all_opportunities (self : ArbitrageAnalyzer) (now : datetime)
  : list ArbitrageOpportunity.t :=
  let symbols :=
    ["BTC-USDT"; "ETH-USDT"; "BNB-USDT"; "ADA-USDT"; "SOL-USDT"; "XRP-USDT"] in
  flat_map
    (fun symbol =>
       find_cross_exchange_arbitrage self now symbol
         ++ find_future_spot_arbitrage self now symbol)
    symbols
    ++ find_triangular_arbitrage self now "USDT"
    ++ find_statistical_arbitrage self now.

(** [generate_arbitrage_signal]: the analyzer after the call and the value
    returned ([None] or the signal dict). *)
Definition generate_arbitrage_signal (self : ArbitrageAnalyzer) (now : datetime)
  : ArbitrageAnalyzer * option Signal :=
  match all_opportunities self now with
  | [] => (self, None)
  | first :: rest =>
      let all := first :: rest in
      let best_opportunity :=
        Py.max_from ArbitrageOpportunity.profit_percent first rest in
      ({| exchanges := exchanges self;
          trading_fees := trading_fees self;
          withdrawal_fees := withdrawal_fees self;
          min_profit_threshold := min_profit_threshold self;
          price_data := price_data self;
          price_history := price_history self;
          arbitrage_opportunities :=
            arbitrage_opportunities self ++ [best_opportunity] |},
       Some (signal_of best_opportunity all))
  end.

(** The analyzer after a call and after a sequence of calls. *)
Definition apply_call (self : ArbitrageAnalyzer) (c : Call) : ArbitrageAnalyzer :=
  match c with
  | Ingest u => apply_update self u
  | Scan now => fst (generate_arbitrage_signal self now)
  end.

Definition run_calls (self : ArbitrageAnalyzer) (calls : list Call) : ArbitrageAnalyzer :=
  fold_left apply_call calls self.

End WithNumPy.

(** No quote of the dict has a zero ask: no division of the triangular scan
    raises. *)
Definition asks_nonzero (prices : Py.dict ExchangePrice.t) : bool :=
  forallb (fun kv => negb (is_zero (ExchangePrice.ask_price (snd kv)))) prices.

(** ** Example data *)

(** A NumPy that computes the mean and the population standard deviation by
    their textbook formulas, summing from the left; it serves to run the
    analyzer on concrete quotes. *)
Definition float_sum (l : list float) : float :=
  fold_left (fun acc x => (acc + x)%float) l 0%float.

Definition float_of_nat (n : nat) : float :=
  Nat.iter n (fun x => (x + 1)%float) 0%float.

Definition textbook_mean (l : list float) : float :=
  (float_sum l / float_of_nat (List.length l))%float.

Definition textbook_std (l : list float) : float :=
  let m := textbook_mean l in
  sqrt (textbook_mean (map (fun x => ((x - m) * (x - m))%float) l)).

Definition textbook_numpy : NumPy :=
  {| np_mean := textbook_mean; np_std := textbook_std |}.

(** A quote whose ask is below its bid and whose volume is negative, pushed
    into a fresh analyzer. *)
Definition crossed_quote_state : ArbitrageAnalyzer :=
  update_price_data ArbitrageAnalyzer_init 0 "OKX" "BTC-USDT" 2 1 (-1).

(** [n] successive quotes of one key, told apart by their timestamps. *)
Definition ticks (n : nat) : list Update :=
  map (fun i =>
         {| u_now := Z.of_nat i; u_exchange := "OKX"; u_symbol := "BTC-USDT";
            u_bid := 100; u_ask := 101; u_volume := 1 |})
    (seq 0 n).

(** OKX asks 100.1 and Binance bids 102 for BTC-USDT: after the fees of
    0.1% on each side the crossing is worth about 1.69%. *)
Definition two_exchange_state : ArbitrageAnalyzer :=
  update_price_data
    (update_price_data ArbitrageAnalyzer_init 0 "OKX" "BTC-USDT" 100 100.1 1)
    1 "Binance" "BTC-USDT" 102 102.1 2.

(** The same with Bybit bidding 102 as well: two opportunities of one profit. *)
Definition tied_state : ArbitrageAnalyzer :=
  update_price_data two_exchange_state 2 "Bybit" "BTC-USDT" 102 102.1 3.

(** An analyzer whose fee table is empty. *)
Definition no_fee_table : ArbitrageAnalyzer :=
  {| exchanges := exchanges ArbitrageAnalyzer_init;
     trading_fees := [];
     withdrawal_fees := withdrawal_fees ArbitrageAnalyzer_init;
     min_profit_threshold := min_profit_threshold ArbitrageAnalyzer_init;
     price_data := [];
     price_history := [];
     arbitrage_opportunities := [] |}.

(** [n] quotes of [symbol] on OKX with one mid price, 100.5; the last one
    has a bid far below the others. *)
Definition flat_ticks (symbol : string) (n : nat) : list Update :=
  map (fun i =>
         {| u_now := Z.of_nat i; u_exchange := "OKX"; u_symbol := symbol;
            u_bid := 100; u_ask := 101; u_volume := 1 |})
    (seq 0 n)
  ++ [{| u_now := Z.of_nat n; u_exchange := "OKX"; u_symbol := symbol;
         u_bid := 1; u_ask := 200; u_volume := 1 |}].

(** Both instruments of the statistical scan with 51 quotes of constant mid:
    the ratio series is constantly 1 while the current ratio is 1/200. *)
Definition flat_market_state : ArbitrageAnalyzer :=
  run_updates ArbitrageAnalyzer_init
    (flat_ticks "BTC-USDT" 50 ++ flat_ticks "ETH-USDT" 50).

(** OKX quotes ETH-USDT, BTC-USDT and the cross ETH-BTC; the implied cross
    rate [eth_bid / 1] is compared with the quoted ask of 1. *)
Definition triangle_state (eth_bid : float) : ArbitrageAnalyzer :=
  update_price_data
    (update_price_data
       (update_price_data ArbitrageAnalyzer_init 0 "OKX" "ETH-USDT" eth_bid 1.6 1)
       1 "OKX" "BTC-USDT" 0.9 1 2)
    2 "OKX" "ETH-BTC" 0.9 1 3.

(** The analyzer of [__init__] with every trading fee set to zero. *)
Definition zero_fee_init : ArbitrageAnalyzer :=
  {| exchanges := exchanges ArbitrageAnalyzer_init;
     trading_fees :=
       [("OKX", 0); ("Binance", 0); ("Bybit", 0);
        ("Upbit", 0); ("Bithumb", 0); ("Coinone", 0)]%float;
     withdrawal_fees := withdrawal_fees ArbitrageAnalyzer_init;
     min_profit_threshold := min_profit_threshold ArbitrageAnalyzer_init;
     price_data := [];
     price_history := [];
     arbitrage_opportunities := [] |}.

(** Without fees, OKX quotes BTC-USDT at 100 / 100.1 and Binance bids
    [binance_bid] and asks [binance_bid + 0.1]. *)
Definition zero_fee_state (binance_bid : float) : ArbitrageAnalyzer :=
  update_price_data
    (update_price_data zero_fee_init 0 "OKX" "BTC-USDT" 100 100.1 1)
    1 "Binance" "BTC-USDT" binance_bid (binance_bid + 0.1) 2.

(** ** Observations used by the properties *)

(** The latest quote of a key and its history agree: without a quote the
    history is empty, otherwise the newest entry of the history was pushed
    with the quote. *)
Definition latest_in_sync (self : ArbitrageAnalyzer) (exchange symbol : string) : Prop :=
  match latest self exchange symbol with
  | None => history self exchange symbol = []
  | Some q =>
      ExchangePrice.exchange q = exchange
      /\ ExchangePrice.symbol q = symbol
      /\ exists older,
           history self exchange symbol
           = older ++ [history_entry (ExchangePrice.timestamp q)
                         (ExchangePrice.bid_price q) (ExchangePrice.ask_price q)
                         (ExchangePrice.volume q)]
  end.

(** The place of a grade on the ladder of [generate_arbitrage_signal],
    [ARBITRAGE_NORMAL] lowest. *)
Definition grade_rank (grade : string) : nat :=
  if String.eqb grade "ARBITRAGE_GODLIKE" then 4
  else if String.eqb grade "ARBITRAGE_LEGENDARY" then 3
  else if String.eqb grade "ARBITRAGE_MEGA" then 2
  else if String.eqb grade "ARBITRAGE_ULTRA" then 1
  else 0.

(** What the loop of [main] does with the value returned by
    [generate_arbitrage_signal]: the signal counter after it, and whether
    [send_arbitrage_alert] is called. *)
Definition handle_signal (signal_count : nat) (arbitrage_signal : option Signal)
    (system_running : bool) : nat * bool :=
  match arbitrage_signal with
  | Some s =>
      if system_running then
        (S signal_count,
         existsb (String.eqb (s_grade s))
           ["ARBITRAGE_GODLIKE"; "ARBITRAGE_LEGENDARY"; "ARBITRAGE_MEGA"])
      else (signal_count, false)
  | None => (signal_count, false)
  end.

(** The opportunity that the cross-exchange scan finds in
    [two_exchange_state] at time 5. *)
Definition two_exchange_opportunity : ArbitrageOpportunity.t :=
  {| ArbitrageOpportunity.type := "cross_exchange";
     ArbitrageOpportunity.symbol := "BTC-USDT";
     ArbitrageOpportunity.buy_price := 100.1;
     ArbitrageOpportunity.sell_price := 102;
     ArbitrageOpportunity.buy_exchange := "OKX";
     ArbitrageOpportunity.sell_exchange := "Binance";
     ArbitrageOpportunity.spread := 1.6979000000000042;
     ArbitrageOpportunity.profit_percent := 1.6945092869168836;
     ArbitrageOpportunity.volume := 1;
     ArbitrageOpportunity.timestamp := 5;
     ArbitrageOpportunity.confidence := 0.84725464345844181 |}.

(** The opportunity that the triangular scan finds in [triangle_state 1.5]. *)
Definition triangle_opportunity : ArbitrageOpportunity.t :=
  {| ArbitrageOpportunity.type := "triangular";
     ArbitrageOpportunity.symbol := "ETH-BTC-USDT";
     ArbitrageOpportunity.buy_price := 1;
     ArbitrageOpportunity.sell_price := 1.5;
     ArbitrageOpportunity.buy_exchange := "OKX";
     ArbitrageOpportunity.sell_exchange := "OKX";
     ArbitrageOpportunity.spread := 0.5;
     ArbitrageOpportunity.profit_percent := 50;
     ArbitrageOpportunity.volume := 1;
     ArbitrageOpportunity.timestamp := 5;
     ArbitrageOpportunity.confidence := 0.8 |}.

(** OKX quotes BTC-USDT at 100 / 100.1 and its swap at 101 / 101.1. *)
Definition swap_state : ArbitrageAnalyzer :=
  update_price_data
    (update_price_data ArbitrageAnalyzer_init 0 "OKX" "BTC-USDT" 100 100.1 1)
    1 "OKX" "BTC-USDT-SWAP" 101 101.1 2.

(** The opportunity that the future-spot scan finds in [swap_state]. *)
Definition swap_opportunity : ArbitrageOpportunity.t :=
  {| ArbitrageOpportunity.type := "future_spot";
     ArbitrageOpportunity.symbol := "BTC-USDT_BTC-USDT-SWAP";
     ArbitrageOpportunity.buy_price := 100.1;
     ArbitrageOpportunity.sell_price := 101;
     ArbitrageOpportunity.buy_exchange := "OKX";
     ArbitrageOpportunity.sell_exchange := "OKX";
     ArbitrageOpportunity.spread := (101 - 100.1)%float;
     ArbitrageOpportunity.profit_percent := ((101 - 100.1) / 100.1 * 100)%float;
     ArbitrageOpportunity.volume := 1;
     ArbitrageOpportunity.timestamp := 5;
     ArbitrageOpportunity.confidence := 0.85 |}.

(** BTC-USDT on OKX moving between two mid prices for 50 quotes and then
    jumping to 120 / 121, against the 51 quotes of [flat_ticks] for
    ETH-USDT. *)
Definition moving_ticks : list Update :=
  map (fun i =>
         {| u_now := Z.of_nat i; u_exchange := "OKX"; u_symbol := "BTC-USDT";
            u_bid := if Nat.even i then 100 else 101;
            u_ask := if Nat.even i then 101 else 102;
            u_volume := 1 |})
    (seq 0 50)
  ++ [{| u_now := 50; u_exchange := "OKX"; u_symbol := "BTC-USDT";
         u_bid := 120; u_ask := 121; u_volume := 1 |}].

Definition moving_market_state : ArbitrageAnalyzer :=
  run_updates ArbitrageAnalyzer_init (moving_ticks ++ flat_ticks "ETH-USDT" 50).

(** The opportunity that the statistical scan finds in
    [moving_market_state] with the textbook NumPy. *)
Definition moving_opportunity : ArbitrageOpportunity.t :=
  {| ArbitrageOpportunity.type := "statistical";
     ArbitrageOpportunity.symbol := "BTC-USDT_ETH-USDT";
     ArbitrageOpportunity.buy_price := 121;
     ArbitrageOpportunity.sell_price := 1;
     ArbitrageOpportunity.buy_exchange := "OKX";
     ArbitrageOpportunity.sell_exchange := "OKX";
     ArbitrageOpportunity.spread := 120;
     ArbitrageOpportunity.profit_percent := 68.159203980099505;
     ArbitrageOpportunity.volume := 1;
     ArbitrageOpportunity.timestamp := 5;
     ArbitrageOpportunity.confidence := 0.9 |}.

(** The order in which NumPy adds up an array of float64 numbers: below 8
    items from the left, up to 128 items in eight interleaved partial sums
    that are combined pairwise before the remaining items are added, and
    beyond that by halves cut at a multiple of 8. *)
Definition sum_onto (res : float) (a : list float) : float :=
  fold_left (fun acc x => (acc + x)%float) a res.

(** [r[j] += a[j]] for each of the partial sums. *)
Fixpoint add_lanes (r a : list float) : list float :=
  match r, a with
  | x :: r', y :: a' => (x + y)%float :: add_lanes r' a'
  | _, _ => []
  end.

(** The loop over whole blocks of 8 items, then the partial sums combined
    and the items left over added one by one. *)
Fixpoint unrolled_sum (blocks : nat) (r a : list float) : float :=
  match blocks with
  | S k => unrolled_sum k (add_lanes r (firstn 8 a)) (skipn 8 a)
  | O =>
      match r with
      | [r0; r1; r2; r3; r4; r5; r6; r7] =>
          sum_onto (((r0 + r1) + (r2 + r3)) + ((r4 + r5) + (r6 + r7)))%float a
      | _ => sum_onto 0%float a
      end
  end.

Fixpoint pairwise_sum (depth : nat) (a : list float) : float :=
  let n := List.length a in
  if (n <? 8)%nat then sum_onto 0%float a
  else if (n <=? 128)%nat then unrolled_sum (n / 8 - 1) (firstn 8 a) (skipn 8 a)
  else
    match depth with
    | S k =>
        let n2 := (n / 2 - (n / 2) mod 8)%nat in
        (pairwise_sum k (firstn n2 a) + pairwise_sum k (skipn n2 a))%float
    | O => 0%float
    end.

(** [np.mean] and [np.std] over that sum; the halving stops well within
    [List.length l] steps. *)
Definition pairwise_mean (l : list float) : float :=
  let n := List.length l in
  ((0 + pairwise_sum n l) / float_of_nat n)%float.

Definition pairwise_std (l : list float) : float :=
  let m := pairwise_mean l in
  sqrt (pairwise_mean (map (fun x => ((x - m) * (x - m))%float) l)).

Definition pairwise_numpy : NumPy :=
  {| np_mean := pairwise_mean; np_std := pairwise_std |}.

(** [n] quotes of [symbol] on OKX that all carry one bid and one ask. *)
Definition steady_ticks (symbol : string) (bid ask : float) (n : nat) : list Update :=
  map (fun i =>
         {| u_now := Z.of_nat i; u_exchange := "OKX"; u_symbol := symbol;
            u_bid := bid; u_ask := ask; u_volume := 1 |})
    (seq 0 n).

(** Both instruments of the statistical scan with 51 quotes each that never
    move: every mid price, and so every ratio of the series, is the same. *)
Definition steady_market_state (btc_bid btc_ask eth_bid eth_ask : float)
  : ArbitrageAnalyzer :=
  run_updates ArbitrageAnalyzer_init
    (steady_ticks "BTC-USDT" btc_bid btc_ask 51
     ++ steady_ticks "ETH-USDT" eth_bid eth_ask 51).

(** * Properties *)

(** ** Facts about the Python model *)

Section DictFacts.
Context {V : Type}.
Implicit Types (d : Py.dict V) (k : string) (v : V).

Lemma dict_get_set_same d k v : Py.dict_get (Py.dict_set d k v) k = Some v.
Proof.
  induction d as [|[k' v'] r IH]; simpl.
  - now rewrite String.eqb_refl.
  - destruct (String.eqb k' k) eqn:E; simpl; rewrite E; auto.
Qed.

Lemma dict_get_set_other d k k' v :
  k <> k' -> Py.dict_get (Py.dict_set d k v) k' = Py.dict_get d k'.
Proof.
  intros Hne. induction d as [|[k0 v0] r IH]; simpl.
  - apply String.eqb_neq in Hne. now rewrite Hne.
  - destruct (String.eqb k0 k) eqn:E; simpl.
    + apply String.eqb_eq in E. subst k0.
      apply String.eqb_neq in Hne. now rewrite Hne.
    + now rewrite IH.
Qed.

(** [if k not in d: d[k] = default] leaves every lookup with a default
    unchanged. *)
Lemma dict_ensure_same d k default :
  Py.dict_get_default
    (if Py.dict_mem d k then d else Py.dict_set d k default) k default
  = Py.dict_get_default d k default.
Proof.
  unfold Py.dict_mem, Py.dict_get_default.
  destruct (Py.dict_get d k) eqn:E.
  - now rewrite E.
  - now rewrite dict_get_set_same.
Qed.

Lemma dict_ensure_other d k k' default :
  k <> k' ->
  Py.dict_get (if Py.dict_mem d k then d else Py.dict_set d k default) k'
  = Py.dict_get d k'.
Proof.
  intros Hne. destruct (Py.dict_mem d k); auto using dict_get_set_other.
Qed.
End DictFacts.

Section SliceFacts.
Context {A : Type}.
Implicit Types l a b : list A.

Lemma last_n_length n l : (List.length (Py.last_n n l) <= n)%nat.
Proof. unfold Py.last_n. rewrite length_skipn. lia. Qed.

Lemma last_n_short n l : (List.length l <= n)%nat -> Py.last_n n l = l.
Proof.
  intros H. unfold Py.last_n.
  replace (List.length l - n)%nat with 0%nat by lia. reflexivity.
Qed.

(** The truncation guarded by [len(l) > n] is the slice itself. *)
Lemma last_n_guarded n l :
  (if (n <? List.length l)%nat then Py.last_n n l else l) = Py.last_n n l.
Proof.
  destruct (Nat.ltb_spec n (List.length l)); auto.
  symmetry. now apply last_n_short.
Qed.

Lemma last_n_app_absorb n a b :
  Py.last_n n (Py.last_n n a ++ b) = Py.last_n n (a ++ b).
Proof.
  destruct (Nat.le_gt_cases (List.length a) n) as [Hle|Hgt].
  - now rewrite (last_n_short n a) by assumption.
  - unfold Py.last_n. rewrite !length_app, length_skipn.
    rewrite (skipn_app (List.length a + List.length b - n)).
    rewrite (skipn_app (List.length a - (List.length a - n) + List.length b - n)).
    rewrite length_skipn, skipn_skipn.
    f_equal; f_equal; lia.
Qed.

Lemma last_n_drop_oldest n x l :
  List.length l = n -> Py.last_n n (x :: l) = l.
Proof.
  intros H. unfold Py.last_n. simpl List.length.
  replace (S (List.length l) - n)%nat with 1%nat by lia. reflexivity.
Qed.
End SliceFacts.

(** ** The ingest call *)

Lemma history_as_default self exchange symbol :
  history self exchange symbol
  = Py.dict_get_default (Py.dict_get_default (price_history self) exchange []) symbol [].
Proof.
  unfold history, history_opt, Py.dict_get_default.
  destruct (Py.dict_get (price_history self) exchange); reflexivity.
Qed.

Lemma latest_update_same self now exchange symbol bid ask volume :
  latest (update_price_data self now exchange symbol bid ask volume) exchange symbol
  = Some {| ExchangePrice.exchange := exchange;
            ExchangePrice.symbol := symbol;
            ExchangePrice.bid_price := bid;
            ExchangePrice.ask_price := ask;
            ExchangePrice.volume := volume;
            ExchangePrice.timestamp := now |}.
Proof.
  unfold latest, update_price_data; simpl.
  now rewrite !dict_get_set_same.
Qed.

Lemma history_update_same self now exchange symbol bid ask volume :
  history (update_price_data self now exchange symbol bid ask volume) exchange symbol
  = Py.last_n 1000
      (history self exchange symbol ++ [history_entry now bid ask volume]).
Proof.
  rewrite (history_as_default self).
  unfold history, history_opt, update_price_data; simpl price_history.
  rewrite !dict_get_set_same, last_n_guarded.
  now rewrite !dict_ensure_same.
Qed.

Lemma history_opt_update_other self now exchange symbol bid ask volume exchange' symbol' :
  exchange <> exchange' \/ symbol <> symbol' ->
  history_opt (update_price_data self now exchange symbol bid ask volume) exchange' symbol'
  = history_opt self exchange' symbol'.
Proof.
  intros Hne. unfold history_opt, update_price_data; simpl price_history.
  destruct (string_dec exchange exchange') as [<-|Hex].
  - destruct Hne as [Hne|Hne]; [congruence|].
    rewrite dict_get_set_same, dict_get_set_other, dict_ensure_other by assumption.
    rewrite dict_ensure_same. unfold Py.dict_get_default.
    destruct (Py.dict_get (price_history self) exchange); reflexivity.
  - rewrite dict_get_set_other, dict_ensure_other by assumption. reflexivity.
Qed.

Lemma history_update_other self now exchange symbol bid ask volume exchange' symbol' :
  exchange <> exchange' \/ symbol <> symbol' ->
  history (update_price_data self now exchange symbol bid ask volume) exchange' symbol'
  = history self exchange' symbol'.
Proof.
  intros Hne. unfold history. now rewrite history_opt_update_other.
Qed.

Lemma for_key_false exchange symbol u :
  for_key exchange symbol u = false ->
  u_exchange u <> exchange \/ u_symbol u <> symbol.
Proof.
  unfold for_key. intros H. apply andb_false_iff in H.
  destruct H as [H|H]; apply String.eqb_neq in H; auto.
Qed.

Lemma for_key_true exchange symbol u :
  for_key exchange symbol u = true ->
  u_exchange u = exchange /\ u_symbol u = symbol.
Proof.
  unfold for_key. intros H. apply andb_true_iff in H.
  destruct H as [H1 H2]. apply String.eqb_eq in H1, H2. auto.
Qed.

(** The history of a key after a run of ingest calls: the entries pushed for
    that key, in order, behind what was there, cut to the last 1000. *)
Lemma history_run_updates us : forall self exchange symbol,
  (List.length (history self exchange symbol) <= 1000)%nat ->
  history (run_updates self us) exchange symbol
  = Py.last_n 1000
      (history self exchange symbol
         ++ map entry_of (filter (for_key exchange symbol) us)).
Proof.
  unfold run_updates.
  induction us as [|u us IH]; intros self exchange symbol Hlen; simpl.
  - rewrite app_nil_r. symmetry. now apply last_n_short.
  - destruct (for_key exchange symbol u) eqn:Hk.
    + apply for_key_true in Hk. destruct Hk as [<- <-].
      rewrite IH; unfold apply_update; rewrite history_update_same.
      * simpl map. rewrite last_n_app_absorb, <- app_assoc. reflexivity.
      * apply last_n_length.
    + apply for_key_false in Hk.
      rewrite IH; unfold apply_update; rewrite history_update_other by assumption; auto.
Qed.

(** C1 (as the code has it): [update_price_data] validates nothing.  Whatever
    the bid, ask and volume are, the call stores the quote as the latest of
    its key and pushes its entry on the key's history, of which the last 1000
    entries are kept. *)
Theorem update_price_data_stores_every_quote :
  forall self now exchange symbol bid ask volume,
    latest (update_price_data self now exchange symbol bid ask volume) exchange symbol
    = Some {| ExchangePrice.exchange := exchange;
              ExchangePrice.symbol := symbol;
              ExchangePrice.bid_price := bid;
              ExchangePrice.ask_price := ask;
              ExchangePrice.volume := volume;
              ExchangePrice.timestamp := now |}
    /\ history (update_price_data self now exchange symbol bid ask volume) exchange symbol
       = Py.last_n 1000
           (history self exchange symbol ++ [history_entry now bid ask volume]).
Proof.
  intros. split.
  - apply latest_update_same.
  - apply history_update_same.
Qed.

(** C1 (as stated) fails: a quote with ask 1 below bid 2 and volume -1 is
    not rejected; it becomes the latest quote of a key that had none and
    the only entry of its history. *)
Lemma malformed_quote_is_ingested :
  (1 <? 2)%float = true /\ (-1 <? 0)%float = true
  /\ latest ArbitrageAnalyzer_init "OKX" "BTC-USDT" = None
  /\ history ArbitrageAnalyzer_init "OKX" "BTC-USDT" = []
  /\ latest crossed_quote_state "OKX" "BTC-USDT"
     = Some {| ExchangePrice.exchange := "OKX";
               ExchangePrice.symbol := "BTC-USDT";
               ExchangePrice.bid_price := 2;
               ExchangePrice.ask_price := 1;
               ExchangePrice.volume := -1;
               ExchangePrice.timestamp := 0 |}
  /\ List.length (history crossed_quote_state "OKX" "BTC-USDT") = 1%nat.
Proof. repeat split. Qed.

(** A scan leaves every history as it is. *)
Lemma history_scan {np : NumPy} self now exchange symbol :
  history (fst (generate_arbitrage_signal self now)) exchange symbol
  = history self exchange symbol.
Proof.
  unfold generate_arbitrage_signal.
  destruct (all_opportunities self now); reflexivity.
Qed.

(** The history of a key after any sequence of calls: the entries pushed for
    that key, in order, behind what was there, cut to the last 1000. *)
Lemma history_run_calls {np : NumPy} calls : forall self exchange symbol,
  (List.length (history self exchange symbol) <= 1000)%nat ->
  history (run_calls self calls) exchange symbol
  = Py.last_n 1000
      (history self exchange symbol
         ++ map entry_of (filter (for_key exchange symbol) (ingested calls))).
Proof.
  unfold run_calls.
  induction calls as [|[u|now] calls IH]; intros self exchange symbol Hlen; simpl.
  - rewrite app_nil_r. symmetry. now apply last_n_short.
  - destruct (for_key exchange symbol u) eqn:Hk.
    + apply for_key_true in Hk. destruct Hk as [<- <-].
      rewrite IH; unfold apply_update; rewrite history_update_same.
      * simpl map. rewrite last_n_app_absorb, <- app_assoc. reflexivity.
      * apply last_n_length.
    + apply for_key_false in Hk.
      rewrite IH; unfold apply_update; rewrite history_update_other by assumption; auto.
  - rewrite IH; rewrite history_scan; auto.
Qed.

(** C9: after any sequence of ingest calls and scans on a fresh analyzer,
    the history of every key holds at most 1000 entries: it is the last 1000
    of the entries pushed for that key, in the order of the calls.  After
    1001 pushes the first entry is gone and the 1000 later ones remain, the
    newest last. *)
Theorem history_capacity_fifo :
  forall (np : NumPy) (calls : list Call) (exchange symbol : string),
    let after := run_calls ArbitrageAnalyzer_init calls in
    let pushed := map entry_of (filter (for_key exchange symbol) (ingested calls)) in
    (List.length (history after exchange symbol) <= 1000)%nat
    /\ history after exchange symbol = Py.last_n 1000 pushed
    /\ (forall oldest rest,
          pushed = oldest :: rest -> List.length rest = 1000%nat ->
          history after exchange symbol = rest).
Proof.
  intros np calls exchange symbol after pushed.
  assert (E : history after exchange symbol = Py.last_n 1000 pushed).
  { unfold after. rewrite history_run_calls; [reflexivity|].
    cbn. apply Nat.le_0_l. }
  repeat split.
  - rewrite E. apply last_n_length.
  - exact E.
  - intros oldest rest Hp Hlen. rewrite E, Hp. now apply last_n_drop_oldest.
Qed.

Lemma history_capacity_fifo_witness :
  history
    (run_calls (np := textbook_numpy) ArbitrageAnalyzer_init
       (Scan 0 :: map Ingest (ticks 1001)))
    "OKX" "BTC-USDT"
  = map entry_of (tl (ticks 1001)).
Proof.
  destruct (history_capacity_fifo textbook_numpy (Scan 0 :: map Ingest (ticks 1001))
              "OKX" "BTC-USDT") as (_ & _ & Hfifo).
  apply (Hfifo (entry_of (hd (Build_Update 0 "" "" 0 0 0) (ticks 1001)))).
  - vm_compute. reflexivity.
  - vm_compute. reflexivity.
Defined.

(** ** The order of binary64 floats

    [<?] and [<=?] are specified by [SFcompare] on the decoded floats; NaN
    compares with nothing. *)

Section FloatOrder.

Ltac cmp_cases :=
  repeat match goal with
    | |- context [Z.compare ?x ?y] => destruct (Z.compare_spec x y)
    | H : context [Z.compare ?x ?y] |- _ => destruct (Z.compare_spec x y)
    | |- context [Pos.compare_cont Eq ?x ?y] =>
        change (Pos.compare_cont Eq x y) with (Pos.compare x y);
        destruct (Pos.compare_spec x y)
    | H : context [Pos.compare_cont Eq ?x ?y] |- _ =>
        change (Pos.compare_cont Eq x y) with (Pos.compare x y) in H;
        destruct (Pos.compare_spec x y)
    end;
  simpl in *; try discriminate; try reflexivity; try lia.

Lemma SFcompare_lt_trans a b c :
  SFcompare a b = Some Lt -> SFcompare b c = Some Lt -> SFcompare a c = Some Lt.
Proof.
  destruct a as [[]|[]| |[] ma ea], b as [[]|[]| |[] mb eb], c as [[]|[]| |[] mc ec];
    simpl; intros H1 H2; try discriminate; try reflexivity;
    injection H1 as H1; injection H2 as H2; f_equal; cmp_cases.
Qed.

Lemma SFcompare_lt_eq_trans a b c :
  SFcompare a b = Some Lt -> SFcompare b c = Some Eq -> SFcompare a c = Some Lt.
Proof.
  destruct a as [[]|[]| |[] ma ea], b as [[]|[]| |[] mb eb], c as [[]|[]| |[] mc ec];
    simpl; intros H1 H2; try discriminate; try reflexivity;
    injection H1 as H1; injection H2 as H2; f_equal; cmp_cases.
Qed.

Lemma SFcompare_lt_not_ge a b :
  SFcompare a b = Some Lt -> SFcompare b a = Some Gt.
Proof.
  destruct a as [[]|[]| |[] ma ea], b as [[]|[]| |[] mb eb];
    simpl; intros H1; try discriminate; try reflexivity;
    injection H1 as H1; f_equal; cmp_cases.
Qed.

Local Open Scope float_scope.

Lemma ltb_leb_trans x y z : (x <? y) = true -> (y <=? z) = true -> (x <? z) = true.
Proof.
  rewrite !ltb_spec, leb_spec. unfold SFltb, SFleb.
  destruct (SFcompare (Prim2SF x) (Prim2SF y)) as [[]|] eqn:E1; try discriminate.
  destruct (SFcompare (Prim2SF y) (Prim2SF z)) as [[]|] eqn:E2; try discriminate;
    intros _ _.
  - now rewrite (SFcompare_lt_eq_trans _ _ _ E1 E2).
  - now rewrite (SFcompare_lt_trans _ _ _ E1 E2).
Qed.

Lemma ltb_leb x y : (x <? y) = true -> (x <=? y) = true.
Proof.
  rewrite ltb_spec, leb_spec. unfold SFltb, SFleb.
  now destruct (SFcompare (Prim2SF x) (Prim2SF y)) as [[]|].
Qed.

Lemma ltb_not_geb x y : (x <? y) = true -> (y <=? x) = false.
Proof.
  rewrite ltb_spec, leb_spec. unfold SFltb, SFleb.
  destruct (SFcompare (Prim2SF x) (Prim2SF y)) as [[]|] eqn:E; try discriminate.
  intros _. now rewrite (SFcompare_lt_not_ge _ _ E).
Qed.


End FloatOrder.

(** ** Loops inside [try] *)

Section CollectFacts.
Context {A : Type}.
Implicit Types (steps : list (Py.result (option A))) (a : A).

Lemma collect_in steps a : In a (Py.collect steps) -> In (Py.Ok (Some a)) steps.
Proof.
  induction steps as [|[[x|]|e] r IH]; simpl; intros H; auto.
  - destruct H as [->|H]; auto.
  - contradiction.
Qed.

Lemma collect_all_none steps :
  (forall s, In s steps -> s = Py.Ok None) -> Py.collect steps = [].
Proof.
  induction steps as [|s r IH]; simpl; intros H; auto.
  rewrite (H s) by auto. apply IH. intros; apply H; auto.
Qed.

(** Without an exception every appended item is in the result. *)
Lemma in_collect steps a :
  (forall e, ~ In (Py.Raise e) steps) ->
  In (Py.Ok (Some a)) steps -> In a (Py.collect steps).
Proof.
  induction steps as [|[[x|]|e] r IH]; simpl; intros Hok H; auto.
  - destruct H as [H|H]; [injection H as ->; auto|].
    right. apply IH; auto. intros e He. apply (Hok e); auto.
  - destruct H as [H|H]; [discriminate|].
    apply IH; auto. intros e He. apply (Hok e); auto.
  - exfalso. apply (Hok e); auto.
Qed.
End CollectFacts.

(** ** [max] keeps the first greatest item *)

Section MaxFacts.
Context {A : Type} (key : A -> float).
Local Open Scope float_scope.



End MaxFacts.

(** ** The signal *)

Section SignalFacts.
Context {np : NumPy}.
Local Open Scope float_scope.

Lemma latest_empty self exchange symbol :
  price_data self = [] -> latest self exchange symbol = None.
Proof. unfold latest. now intros ->. Qed.

Lemma exchange_prices_empty self symbol :
  price_data self = [] -> exchange_prices self symbol = [].
Proof.
  intros H. unfold exchange_prices.
  induction (exchanges self) as [|e r IH]; simpl; auto.
  unfold add_quote. now rewrite latest_empty.
Qed.

Lemma all_opportunities_empty self now :
  price_data self = [] -> all_opportunities self now = [].
Proof.
  intros H. unfold all_opportunities.
  assert (Hcross : forall symbol, find_cross_exchange_arbitrage self now symbol = []).
  { intros symbol. unfold find_cross_exchange_arbitrage.
    now rewrite exchange_prices_empty. }
  assert (Hfs : forall symbol, find_future_spot_arbitrage self now symbol = []).
  { intros symbol. unfold find_future_spot_arbitrage, future_spot_step.
    now rewrite latest_empty. }
  assert (Htri : find_triangular_arbitrage self now "USDT" = []).
  { unfold find_triangular_arbitrage. now rewrite H. }
  assert (Hstat : find_statistical_arbitrage self now = []).
  { unfold find_statistical_arbitrage. simpl. rewrite app_nil_r.
    apply collect_all_none. intros s Hs. apply in_map_iff in Hs.
    destruct Hs as (e & <- & _). unfold statistical_step.
    now rewrite latest_empty. }
  simpl. now rewrite !Hcross, !Hfs, Htri, Hstat.
Qed.

(** C2 (as the code has it): on an analyzer that holds no quote the scans
    find nothing, so every count over the list of opportunities is zero,
    and [generate_arbitrage_signal] returns [None], without a signal dict
    and hence without counts, and leaves the analyzer as it was. *)
Theorem generate_arbitrage_signal_on_empty_book :
  forall self now,
    price_data self = [] ->
    all_opportunities self now = []
    /\ counts_by_type (all_opportunities self now)
       = {| n_cross_exchange := 0; n_triangular := 0;
            n_statistical := 0; n_future_spot := 0 |}
    /\ generate_arbitrage_signal self now = (self, None).
Proof.
  intros self now H. pose proof (all_opportunities_empty self now H) as E.
  unfold generate_arbitrage_signal. rewrite E. auto.
Qed.

(** C4 (as the code has it): [generate_arbitrage_signal] leaves the
    configuration, the latest quotes and the histories as they were; when
    the scans find nothing the analyzer is unchanged, otherwise the best
    opportunity is appended to [arbitrage_opportunities]. *)
Theorem generate_arbitrage_signal_frame :
  forall self now,
    let after := fst (generate_arbitrage_signal self now) in
    exchanges after = exchanges self
    /\ trading_fees after = trading_fees self
    /\ withdrawal_fees after = withdrawal_fees self
    /\ min_profit_threshold after = min_profit_threshold self
    /\ price_data after = price_data self
    /\ price_history after = price_history self
    /\ match all_opportunities self now with
       | [] => after = self
       | first :: rest =>
           arbitrage_opportunities after
           = arbitrage_opportunities self
               ++ [Py.max_from ArbitrageOpportunity.profit_percent first rest]
       end.
Proof.
  intros self now. unfold generate_arbitrage_signal.
  destruct (all_opportunities self now); simpl; repeat split.
Qed.



End SignalFacts.

(** C2 (as stated) fails: on the freshly built analyzer the call returns
    [None]; no value carrying a zero count for every type is returned. *)
Lemma empty_book_signal_has_no_counts :
  ~ exists s,
      snd (generate_arbitrage_signal (np := textbook_numpy) ArbitrageAnalyzer_init 0)
      = Some s
      /\ s_opportunities_by_type s
         = {| n_cross_exchange := 0; n_triangular := 0;
              n_statistical := 0; n_future_spot := 0 |}.
Proof. intros (s & H & _). vm_compute in H. discriminate. Qed.

Lemma generate_arbitrage_signal_on_empty_book_witness :
  all_opportunities (np := textbook_numpy) ArbitrageAnalyzer_init 0 = []
  /\ counts_by_type (all_opportunities (np := textbook_numpy) ArbitrageAnalyzer_init 0)
     = {| n_cross_exchange := 0; n_triangular := 0;
          n_statistical := 0; n_future_spot := 0 |}
  /\ generate_arbitrage_signal (np := textbook_numpy) ArbitrageAnalyzer_init 0
     = (ArbitrageAnalyzer_init, None).
Proof.
  apply (@generate_arbitrage_signal_on_empty_book textbook_numpy ArbitrageAnalyzer_init 0).
  reflexivity.
Defined.

(** C4 (as stated) fails: a scan that finds an opportunity keeps it in
    [arbitrage_opportunities], which was empty before the call. *)
Lemma scan_retains_best_opportunity :
  arbitrage_opportunities two_exchange_state = []
  /\ List.length
       (arbitrage_opportunities
          (fst (generate_arbitrage_signal (np := textbook_numpy) two_exchange_state 5)))
     = 1%nat.
Proof. split; vm_compute; reflexivity. Qed.


(** Two opportunities of one profit: the signal describes the one found
    first, which sells on Binance, and counts both as cross-exchange. *)
Example tie_keeps_first :
  option_map (fun s => (s_sell_exchange s, s_total_opportunities s,
                        s_opportunities_by_type s))
    (snd (generate_arbitrage_signal (np := textbook_numpy) tied_state 5))
  = Some ("Binance", 2%nat,
          {| n_cross_exchange := 2; n_triangular := 0;
             n_statistical := 0; n_future_spot := 0 |})
  /\ map ArbitrageOpportunity.sell_exchange
       (all_opportunities (np := textbook_numpy) tied_state 5)
     = ["Binance"; "Bybit"].
Proof. split; vm_compute; reflexivity. Qed.

(** ** Cross-exchange scan *)

(** What an iteration that appends an opportunity has checked. *)
Lemma cross_exchange_step_emits self now symbol buy sell o :
  cross_exchange_step self now symbol buy sell = Py.Ok (Some o) ->
  exists threshold,
    Py.dict_get (min_profit_threshold self) "cross_exchange" = Some threshold
    /\ (threshold * 100 <=? ArbitrageOpportunity.profit_percent o)%float = true
    /\ ArbitrageOpportunity.type o = "cross_exchange"
    /\ ArbitrageOpportunity.buy_exchange o = fst buy
    /\ ArbitrageOpportunity.sell_exchange o = fst sell.
Proof.
  destruct buy as [buy_exchange buy_info], sell as [sell_exchange sell_info].
  unfold cross_exchange_step.
  destruct (String.eqb buy_exchange sell_exchange); [discriminate|].
  destruct (_ <? _)%float; [|discriminate].
  unfold Py.truediv. destruct (is_zero _); [discriminate|]. simpl Py.bind.
  unfold Py.dict_getitem.
  destruct (Py.dict_get (min_profit_threshold self) "cross_exchange") as [threshold|];
    [|discriminate].
  simpl Py.bind. destruct (_ <=? _)%float eqn:E; [|discriminate].
  intros H. injection H as <-. exists threshold. simpl. auto.
Qed.

Lemma find_cross_exchange_arbitrage_in self now symbol o :
  In o (find_cross_exchange_arbitrage self now symbol) ->
  exists buy sell,
    In buy (exchange_prices self symbol) /\ In sell (exchange_prices self symbol)
    /\ cross_exchange_step self now symbol buy sell = Py.Ok (Some o).
Proof.
  unfold find_cross_exchange_arbitrage.
  destruct (_ <? _)%nat; [intros []|].
  intros H. apply collect_in, in_flat_map in H. destruct H as (buy & Hb & H).
  apply in_map_iff in H. destruct H as (sell & H & Hs). eauto.
Qed.

(** C7: whatever the quotes, the fee table and the thresholds are, every
    opportunity of the cross-exchange scan has a [profit_percent] that is at
    least the configured cross-exchange threshold, taken in percent. *)
Theorem cross_exchange_profit_meets_threshold :
  forall self now symbol o,
    In o (find_cross_exchange_arbitrage self now symbol) ->
    exists threshold,
      Py.dict_get (min_profit_threshold self) "cross_exchange" = Some threshold
      /\ (threshold * 100 <=? ArbitrageOpportunity.profit_percent o)%float = true.
Proof.
  intros self now symbol o H.
  apply find_cross_exchange_arbitrage_in in H. destruct H as (buy & sell & _ & _ & H).
  apply cross_exchange_step_emits in H. destruct H as (threshold & H1 & H2 & _).
  eauto.
Qed.

Lemma cross_exchange_profit_meets_threshold_witness :
  exists threshold,
    Py.dict_get (min_profit_threshold two_exchange_state) "cross_exchange" = Some threshold
    /\ (threshold * 100 <=? 1.6945092869168836)%float = true.
Proof.
  apply (cross_exchange_profit_meets_threshold two_exchange_state 5 "BTC-USDT"
           {| ArbitrageOpportunity.type := "cross_exchange";
              ArbitrageOpportunity.symbol := "BTC-USDT";
              ArbitrageOpportunity.buy_price := 100.1;
              ArbitrageOpportunity.sell_price := 102;
              ArbitrageOpportunity.buy_exchange := "OKX";
              ArbitrageOpportunity.sell_exchange := "Binance";
              ArbitrageOpportunity.spread := 1.6979000000000042;
              ArbitrageOpportunity.profit_percent := 1.6945092869168836;
              ArbitrageOpportunity.volume := 1;
              ArbitrageOpportunity.timestamp := 5;
              ArbitrageOpportunity.confidence := 0.84725464345844181 |}).
  vm_compute. left. reflexivity.
Defined.

(** C5 (as the code has it): for an exchange that the fee table does not
    list the rate is 0.001, so the net buying price is the ask plus 0.1% of
    it and the net selling price the bid minus 0.1% of it. *)
Theorem fee_rate_default :
  forall self exchange price,
    Py.dict_get (trading_fees self) exchange = None ->
    fee_rate self exchange = 0.001%float
    /\ net_buy_price self exchange price = (price + price * 0.001)%float
    /\ net_sell_price self exchange price = (price - price * 0.001)%float.
Proof.
  intros self exchange price H.
  unfold net_buy_price, net_sell_price, fee_rate, Py.dict_get_default.
  now rewrite H.
Qed.

Lemma fee_rate_default_witness :
  fee_rate no_fee_table "OKX" = 0.001%float
  /\ net_buy_price no_fee_table "OKX" 100 = (100 + 100 * 0.001)%float
  /\ net_sell_price no_fee_table "OKX" 100 = (100 - 100 * 0.001)%float.
Proof. apply (fee_rate_default no_fee_table "OKX" 100). reflexivity. Defined.

(** C5 (as stated) fails: with an empty fee table the rate of OKX is not
    zero, a price of 100 is bought at 100.1 net and sold at 99.9 net. *)
Lemma absent_fee_is_not_zero :
  Py.dict_get (trading_fees no_fee_table) "OKX" = None
  /\ (fee_rate no_fee_table "OKX" =? 0)%float = false
  /\ net_buy_price no_fee_table "OKX" 100 = 100.1%float
  /\ net_sell_price no_fee_table "OKX" 100 = 99.9%float.
Proof. repeat split. Qed.

(** ** Statistical scan *)

Section StatisticalFacts.
Context {np : NumPy}.
Local Open Scope float_scope.

Lemma is_zero_spec (s : float) :
  is_zero s = true -> exists b, Prim2SF s = S754_zero b.
Proof.
  unfold is_zero. rewrite eqb_spec.
  change (Prim2SF zero) with (S754_zero false).
  destruct (Prim2SF s) as [b|b| |b m e]; try discriminate; eauto.
  - destruct b; discriminate.
  - destruct b; discriminate.
Qed.

(** With a zero deviation the z-score [d / s] is infinite or NaN; when it is
    infinite, the profit [|z| * s / c * 100] is NaN, which passes no
    threshold. *)
Lemma zero_std_no_profit (d s c t : float) :
  is_zero s = true ->
  (2 <? abs (d / s)) = true ->
  (t <=? abs (d / s) * s / c * 100) = false.
Proof.
  intros Hs. destruct (is_zero_spec s Hs) as [b Eb].
  rewrite ltb_spec, leb_spec.
  repeat first [rewrite mul_spec | rewrite div_spec | rewrite abs_spec].
  rewrite Eb.
  generalize (Prim2SF 2) (Prim2SF 100) (Prim2SF t) (Prim2SF c) (Prim2SF d).
  intros two hundred T C D.
  destruct D as [sd|sd| |sd md ed]; cbn;
    try (destruct two; discriminate);
    intros _; destruct T; reflexivity.
Qed.

Lemma statistical_step_emits self now symbol1 symbol2 exchange o :
  statistical_step self now symbol1 symbol2 exchange = Py.Ok (Some o) ->
  ArbitrageOpportunity.buy_exchange o = exchange
  /\ exists hist1 hist2,
       history_opt self exchange symbol1 = Some hist1
       /\ history_opt self exchange symbol2 = Some hist2
       /\ is_zero (np_std (ratio_series hist1 hist2)) = false.
Proof.
  unfold statistical_step.
  destruct (latest self exchange symbol1) as [price1|]; [|discriminate].
  destruct (latest self exchange symbol2) as [price2|]; [|discriminate].
  destruct (history_opt self exchange symbol1) as [hist1|]; [|discriminate].
  destruct (history_opt self exchange symbol2) as [hist2|]; [|discriminate].
  destruct (_ && _)%bool; [|discriminate].
  unfold Py.truediv. destruct (is_zero (ExchangePrice.ask_price price2)); [discriminate|].
  simpl Py.bind.
  destruct (2 <? _) eqn:Ez; [|discriminate].
  unfold Py.dict_getitem.
  destruct (Py.dict_get (min_profit_threshold self) "statistical") as [threshold|];
    [|discriminate].
  simpl Py.bind. destruct (_ <=? _) eqn:Ep; [|discriminate].
  intros H. split.
  - destruct (0 <? _); injection H as <-; reflexivity.
  - exists hist1, hist2. repeat split.
    destruct (is_zero (np_std (ratio_series hist1 hist2))) eqn:Es; auto.
    rewrite (zero_std_no_profit _ _ _ _ Es Ez) in Ep. discriminate.
Qed.

Lemma find_statistical_arbitrage_in self now o :
  In o (find_statistical_arbitrage self now) ->
  exists exchange,
    In exchange (exchanges self)
    /\ statistical_step self now "BTC-USDT" "ETH-USDT" exchange = Py.Ok (Some o).
Proof.
  unfold find_statistical_arbitrage. simpl. rewrite app_nil_r.
  intros H. apply collect_in, in_map_iff in H.
  destruct H as (exchange & H & Hin). eauto.
Qed.

(** C6 (as the code has it): on an exchange where [np.std] of the ratio
    series of the two instruments is exactly zero, the statistical scan,
    which always returns its list, puts no opportunity of that exchange in
    it, whatever the current ratio is: the iteration for that exchange
    appends nothing.  The code has no test on the deviation; it is the
    division by zero that leaves a profit passing no threshold. *)
Theorem zero_deviation_emits_nothing :
  forall self now exchange hist1 hist2,
    history_opt self exchange "BTC-USDT" = Some hist1 ->
    history_opt self exchange "ETH-USDT" = Some hist2 ->
    is_zero (np_std (ratio_series hist1 hist2)) = true ->
    (forall o, In o (find_statistical_arbitrage self now) ->
       ArbitrageOpportunity.buy_exchange o <> exchange)
    /\ (forall o,
          statistical_step self now "BTC-USDT" "ETH-USDT" exchange <> Py.Ok (Some o)).
Proof.
  intros self now exchange hist1 hist2 H1 H2 Hz.
  assert (Hstep : forall o,
            statistical_step self now "BTC-USDT" "ETH-USDT" exchange <> Py.Ok (Some o)).
  { intros o Ho. apply statistical_step_emits in Ho.
    destruct Ho as (_ & h1 & h2 & E1 & E2 & Hnz). congruence. }
  split; auto.
  intros o Ho Hex. apply find_statistical_arbitrage_in in Ho.
  destruct Ho as (e & _ & Ho).
  pose proof (statistical_step_emits _ _ _ _ _ _ Ho) as (He & _).
  apply (Hstep o). congruence.
Qed.

End StatisticalFacts.

(** Quotes of 300 / 303 against 100 / 101: every ratio of the series is 3,
    its deviation is computed as 0, and the current ratio 300 / 101 is one
    percent below. *)
Lemma zero_deviation_emits_nothing_witness :
  (forall o,
     In o (find_statistical_arbitrage (np := pairwise_numpy)
             (steady_market_state 300 303 100 101) 99) ->
     ArbitrageOpportunity.buy_exchange o <> "OKX")
  /\ (forall o,
        statistical_step (np := pairwise_numpy) (steady_market_state 300 303 100 101) 99
          "BTC-USDT" "ETH-USDT" "OKX" <> Py.Ok (Some o)).
Proof.
  apply (@zero_deviation_emits_nothing pairwise_numpy
           (steady_market_state 300 303 100 101) 99 "OKX"
           (history (steady_market_state 300 303 100 101) "OKX" "BTC-USDT")
           (history (steady_market_state 300 303 100 101) "OKX" "ETH-USDT")).
  - vm_compute. reflexivity.
  - vm_compute. reflexivity.
  - vm_compute. reflexivity.
Defined.

(** C6 (as stated) fails: with 51 quotes of 100 / 101 against 51 quotes of
    3.6 / 3.8 every ratio of the series is the same number, yet the mean
    computed from the 50 ratios is not that number, the deviation is not
    zero, and the scan yields an opportunity of about 3.2%.  This holds for
    the sum taken from the left and for NumPy's order of summation. *)
Lemma constant_series_yields_opportunity :
  ratio_series (history (steady_market_state 100 101 3.6 3.8) "OKX" "BTC-USDT")
    (history (steady_market_state 100 101 3.6 3.8) "OKX" "ETH-USDT")
  = repeat 27.162162162162161%float 50
  /\ List.length (history (steady_market_state 100 101 3.6 3.8) "OKX" "BTC-USDT") = 51%nat
  /\ List.length (history (steady_market_state 100 101 3.6 3.8) "OKX" "ETH-USDT") = 51%nat
  /\ np_std (NumPy := textbook_numpy) (repeat 27.162162162162161%float 50)
     = 7.1054273576010019e-15%float
  /\ np_std (NumPy := pairwise_numpy) (repeat 27.162162162162161%float 50)
     = 3.5527136788005009e-15%float
  /\ map (fun o => (ArbitrageOpportunity.type o, ArbitrageOpportunity.symbol o,
                    ArbitrageOpportunity.buy_exchange o,
                    ArbitrageOpportunity.profit_percent o))
       (find_statistical_arbitrage (np := textbook_numpy)
          (steady_market_state 100 101 3.6 3.8) 99)
     = [("statistical", "BTC-USDT_ETH-USDT", "OKX", 3.2162162162161794%float)]
  /\ map (fun o => (ArbitrageOpportunity.type o, ArbitrageOpportunity.symbol o,
                    ArbitrageOpportunity.buy_exchange o,
                    ArbitrageOpportunity.profit_percent o))
       (find_statistical_arbitrage (np := pairwise_numpy)
          (steady_market_state 100 101 3.6 3.8) 99)
     = [("statistical", "BTC-USDT_ETH-USDT", "OKX", 3.2162162162161922%float)].
Proof. repeat split; vm_compute; reflexivity. Qed.

(** On that market the current ratio, 1/200, is far from the constant 1 of
    the series, the z-score is infinite and the profit NaN. *)
Example flat_market_scan :
  np_std (NumPy := textbook_numpy)
    (ratio_series (history flat_market_state "OKX" "BTC-USDT")
       (history flat_market_state "OKX" "ETH-USDT")) = 0%float
  /\ List.length (history flat_market_state "OKX" "BTC-USDT") = 51%nat
  /\ statistical_step (np := textbook_numpy) flat_market_state 99
       "BTC-USDT" "ETH-USDT" "OKX" = Py.Ok None
  /\ find_statistical_arbitrage (np := textbook_numpy) flat_market_state 99 = [].
Proof. repeat split; vm_compute; reflexivity. Qed.

(** ** Triangular scan *)

Section TriangularFacts.
Local Open Scope float_scope.

Lemma dict_get_in {V} (d : Py.dict V) k v :
  Py.dict_get d k = Some v -> In (k, v) d.
Proof.
  induction d as [|[k' v'] r IH]; simpl; [discriminate|].
  destruct (String.eqb k' k) eqn:E.
  - apply String.eqb_eq in E. intros H. injection H as ->. subst. auto.
  - auto.
Qed.

Lemma in_keys_get {V} (d : Py.dict V) k :
  In k (Py.dict_keys d) -> exists v, Py.dict_get d k = Some v.
Proof.
  unfold Py.dict_keys. induction d as [|[k' v'] r IH]; simpl; [intros []|].
  destruct (String.eqb k' k) eqn:E; eauto.
  intros [H|H]; [|auto]. subst. now rewrite String.eqb_refl in E.
Qed.

Lemma get_in_keys {V} (d : Py.dict V) k v :
  Py.dict_get d k = Some v -> In k (Py.dict_keys d).
Proof.
  intros H. apply dict_get_in in H. unfold Py.dict_keys.
  change k with (fst (k, v)). now apply in_map.
Qed.

Lemma asks_nonzero_get prices k price :
  asks_nonzero prices = true -> Py.dict_get prices k = Some price ->
  is_zero (ExchangePrice.ask_price price) = false.
Proof.
  unfold asks_nonzero. rewrite forallb_forall. intros H Hget.
  apply dict_get_in in Hget. specialize (H _ Hget). simpl in H.
  now apply negb_true_iff in H.
Qed.

Lemma triangular_step_no_raise self now base prices symbol1 symbol2 threshold e :
  asks_nonzero prices = true ->
  Py.dict_get (min_profit_threshold self) "triangular" = Some threshold ->
  In symbol1 (Py.dict_keys prices) -> In symbol2 (Py.dict_keys prices) ->
  triangular_step self now base prices symbol1 symbol2 <> Py.Raise e.
Proof.
  intros Hnz Hthr H1 H2.
  apply in_keys_get in H1, H2. destruct H1 as [price1 H1], H2 as [price2 H2].
  unfold triangular_step. cbv zeta.
  destruct (String.eqb _ _); [discriminate|].
  unfold Py.dict_mem, Py.dict_getitem, Py.truediv. rewrite H1, H2, Hthr.
  set (cross1 := (Py.str_replace symbol1 _ "" ++ "-" ++ Py.str_replace symbol2 _ "")%string).
  set (cross2 := (Py.str_replace symbol2 _ "" ++ "-" ++ Py.str_replace symbol1 _ "")%string).
  destruct (Py.dict_get prices cross1) as [cross|] eqn:Ec.
  - rewrite Ec. cbn [Py.bind].
    rewrite (asks_nonzero_get _ _ _ Hnz H2). cbn [Py.bind].
    destruct (_ <? _); [|discriminate].
    rewrite (asks_nonzero_get _ _ _ Hnz Ec). cbn [Py.bind].
    destruct (_ <=? _); discriminate.
  - destruct (Py.dict_get prices cross2) as [cross|] eqn:Ec';
      [rewrite Ec'|]; discriminate.
Qed.

(** C3 (as the code has it): on OKX, for two instruments quoted in the base
    currency whose direct cross [currency1-currency2] is quoted, when the
    implied rate [bid1 / ask2] exceeds the cross ask by more than 0.1% and
    the deviation in percent also reaches the triangular threshold, the scan
    appends a triangular opportunity whose [profit_percent] is that
    deviation in percent.  (No OKX quote has a zero ask.) *)
Theorem triangular_emits_above_threshold :
  forall self now base prices symbol1 symbol2 price1 price2 cross threshold,
    let currency1 := Py.str_replace symbol1 ("-" ++ base) "" in
    let currency2 := Py.str_replace symbol2 ("-" ++ base) "" in
    let theoretical :=
      ExchangePrice.bid_price price1 / ExchangePrice.ask_price price2 in
    let actual := ExchangePrice.ask_price cross in
    Py.dict_get (price_data self) "OKX" = Some prices ->
    asks_nonzero prices = true ->
    Py.dict_get (min_profit_threshold self) "triangular" = Some threshold ->
    Py.dict_get prices symbol1 = Some price1 ->
    Py.dict_get prices symbol2 = Some price2 ->
    Py.str_endswith symbol1 ("-" ++ base) = true ->
    Py.str_endswith symbol2 ("-" ++ base) = true ->
    currency1 <> currency2 ->
    Py.dict_get prices (currency1 ++ "-" ++ currency2)%string = Some cross ->
    (actual * 1.001 <? theoretical) = true ->
    (threshold * 100 <=? (theoretical - actual) / actual * 100) = true ->
    In {| ArbitrageOpportunity.type := "triangular";
          ArbitrageOpportunity.symbol :=
            (currency1 ++ "-" ++ currency2 ++ "-" ++ base)%string;
          ArbitrageOpportunity.buy_price := actual;
          ArbitrageOpportunity.sell_price := theoretical;
          ArbitrageOpportunity.buy_exchange := "OKX";
          ArbitrageOpportunity.sell_exchange := "OKX";
          ArbitrageOpportunity.spread := theoretical - actual;
          ArbitrageOpportunity.profit_percent := (theoretical - actual) / actual * 100;
          ArbitrageOpportunity.volume :=
            Py.min3 (ExchangePrice.volume price1) (ExchangePrice.volume price2)
              (ExchangePrice.volume cross);
          ArbitrageOpportunity.timestamp := now;
          ArbitrageOpportunity.confidence := 0.8 |}
       (find_triangular_arbitrage self now base).
Proof.
  intros self now base prices symbol1 symbol2 price1 price2 cross threshold
    currency1 currency2 theoretical actual
    Hprices Hnz Hthr H1 H2 He1 He2 Hne Hcross Hmargin Hprofit.
  unfold find_triangular_arbitrage. rewrite Hprices.
  pose proof (get_in_keys _ _ _ H1) as K1. pose proof (get_in_keys _ _ _ H2) as K2.
  apply in_collect.
  - intros e He. unfold triangular_steps in He.
    apply in_flat_map in He. destruct He as (s1 & Hs1 & He).
    destruct (Py.str_endswith s1 _); [|destruct He].
    apply in_flat_map in He. destruct He as (s2 & Hs2 & He).
    destruct (Py.str_endswith s2 _); [|destruct He].
    destruct He as [He|[]].
    now apply (triangular_step_no_raise self now base prices s1 s2 threshold e).
  - unfold triangular_steps.
    apply in_flat_map. exists symbol1. split; [assumption|]. rewrite He1.
    apply in_flat_map. exists symbol2. split; [assumption|]. rewrite He2.
    left. subst currency1 currency2 theoretical actual.
    unfold triangular_step. cbv zeta.
    apply String.eqb_neq in Hne. rewrite Hne.
    unfold Py.dict_mem, Py.dict_getitem, Py.truediv.
    rewrite Hcross, H1, H2, Hthr. cbn [Py.bind].
    rewrite (asks_nonzero_get _ _ _ Hnz H2). cbn [Py.bind].
    rewrite Hcross. cbn [Py.bind]. rewrite Hmargin.
    rewrite (asks_nonzero_get _ _ _ Hnz Hcross). cbn [Py.bind]. rewrite Hprofit.
    reflexivity.
Qed.

End TriangularFacts.

Lemma triangular_emits_above_threshold_witness :
  In {| ArbitrageOpportunity.type := "triangular";
        ArbitrageOpportunity.symbol := "ETH-BTC-USDT";
        ArbitrageOpportunity.buy_price := 1;
        ArbitrageOpportunity.sell_price := 1.5;
        ArbitrageOpportunity.buy_exchange := "OKX";
        ArbitrageOpportunity.sell_exchange := "OKX";
        ArbitrageOpportunity.spread := 0.5;
        ArbitrageOpportunity.profit_percent := 50;
        ArbitrageOpportunity.volume := 1;
        ArbitrageOpportunity.timestamp := 5;
        ArbitrageOpportunity.confidence := 0.8 |}
     (find_triangular_arbitrage (triangle_state 1.5) 5 "USDT").
Proof.
  apply (triangular_emits_above_threshold (triangle_state 1.5) 5 "USDT"
           (Py.dict_get_default (price_data (triangle_state 1.5)) "OKX" [])
           "ETH-USDT" "BTC-USDT"
           (ExchangePrice.mk "OKX" "ETH-USDT" 1.5 1.6 1 0)
           (ExchangePrice.mk "OKX" "BTC-USDT" 0.9 1 2 1)
           (ExchangePrice.mk "OKX" "ETH-BTC" 0.9 1 3 2)
           0.002%float);
    try reflexivity.
  vm_compute. discriminate.
Defined.

(** C3 (as stated) fails: with an ETH-USDT bid of 1.0015 the implied rate
    1.0015 exceeds the cross ask of 1 by more than 0.1%, yet the scan emits
    nothing, the deviation of 0.15% being under the threshold of 0.2%. *)
Lemma triangular_margin_is_not_enough :
  option_map ExchangePrice.bid_price (latest (triangle_state 1.0015) "OKX" "ETH-USDT")
  = Some 1.0015%float
  /\ option_map ExchangePrice.ask_price (latest (triangle_state 1.0015) "OKX" "BTC-USDT")
     = Some 1%float
  /\ option_map ExchangePrice.ask_price (latest (triangle_state 1.0015) "OKX" "ETH-BTC")
     = Some 1%float
  /\ (1 * 1.001 <? 1.0015 / 1)%float = true
  /\ find_triangular_arbitrage (triangle_state 1.0015) 5 "USDT" = [].
Proof. repeat split. Qed.

(** ** Two exchanges without fees *)

Section ZeroFeeFacts.
Local Open Scope float_scope.

Lemma SFcompare_eq_lt_trans a b c :
  SFcompare a b = Some Eq -> SFcompare b c = Some Lt -> SFcompare a c = Some Lt.
Proof.
  destruct a as [[]|[]| |[] ma ea], b as [[]|[]| |[] mb eb], c as [[]|[]| |[] mc ec];
    simpl; intros H1 H2; try discriminate; try reflexivity;
    injection H1 as H1; injection H2 as H2; f_equal;
    repeat match goal with
      | H : context [Z.compare ?x ?y] |- _ => destruct (Z.compare_spec x y)
      | |- context [Z.compare ?x ?y] => destruct (Z.compare_spec x y)
      | H : context [Pos.compare_cont Eq ?x ?y] |- _ =>
          change (Pos.compare_cont Eq x y) with (Pos.compare x y) in H;
          destruct (Pos.compare_spec x y)
      | |- context [Pos.compare_cont Eq ?x ?y] =>
          change (Pos.compare_cont Eq x y) with (Pos.compare x y);
          destruct (Pos.compare_spec x y)
      end;
    simpl in *; try discriminate; try reflexivity; try lia.
Qed.

Lemma leb_ltb_trans x y z : (x <=? y) = true -> (y <? z) = true -> (x <? z) = true.
Proof.
  rewrite !ltb_spec, leb_spec. unfold SFltb, SFleb.
  destruct (SFcompare (Prim2SF x) (Prim2SF y)) as [[]|] eqn:E1; try discriminate;
    destruct (SFcompare (Prim2SF y) (Prim2SF z)) as [[]|] eqn:E2; try discriminate;
    intros _ _.
  - now rewrite (SFcompare_eq_lt_trans _ _ _ E1 E2).
  - now rewrite (SFcompare_lt_trans _ _ _ E1 E2).
Qed.

Lemma ltb_trans x y z : (x <? y) = true -> (y <? z) = true -> (x <? z) = true.
Proof. intros H1 H2. apply (ltb_leb_trans x y z H1). now apply ltb_leb. Qed.

(** A float strictly between 0 and infinity is a positive finite number. *)
Lemma positive_finite_spec x :
  (0 <? x) = true -> (x <? infinity) = true ->
  exists m e, Prim2SF x = S754_finite false m e.
Proof.
  rewrite !ltb_spec.
  change (Prim2SF 0) with (S754_zero false).
  change (Prim2SF infinity) with (S754_infinity false).
  destruct (Prim2SF x) as [[]|[]| |[] m e]; try discriminate; eauto.
Qed.

Lemma positive_finite_not_zero x :
  (0 <? x) = true -> (x <? infinity) = true -> is_zero x = false.
Proof.
  intros H1 H2. destruct (positive_finite_spec x H1 H2) as (m & e & E).
  unfold is_zero. rewrite eqb_spec, E. reflexivity.
Qed.

(** Adding a fee of [x * 0] to, or taking it from, a positive finite price
    leaves the price as it is. *)
Lemma add_zero_fee x :
  (0 <? x) = true -> (x <? infinity) = true -> x + x * 0 = x.
Proof.
  intros H1 H2. destruct (positive_finite_spec x H1 H2) as (m & e & E).
  apply Prim2SF_inj. rewrite add_spec, mul_spec, E. reflexivity.
Qed.

Lemma sub_zero_fee x :
  (0 <? x) = true -> (x <? infinity) = true -> x - x * 0 = x.
Proof.
  intros H1 H2. destruct (positive_finite_spec x H1 H2) as (m & e & E).
  apply Prim2SF_inj. rewrite sub_spec, mul_spec, E. reflexivity.
Qed.

End ZeroFeeFacts.

Section TwoExchanges.
Local Open Scope float_scope.

Variables (self : ArbitrageAnalyzer) (symbol A B : string) (qa qb : ExchangePrice.t).
Hypothesis A_not_B : A <> B.
Hypothesis quote_A : latest self A symbol = Some qa.
Hypothesis quote_B : latest self B symbol = Some qb.

Local Notation "'only_A_and_B' acc" :=
  (acc = [] \/ acc = [(A, qa)] \/ acc = [(B, qb)]
   \/ acc = [(A, qa); (B, qb)] \/ acc = [(B, qb); (A, qa)])
  (at level 10, acc at level 9).

Lemma exchange_prices_fold_shape l :
  (forall e, In e l -> e <> A -> e <> B -> latest self e symbol = None) ->
  forall acc, only_A_and_B acc -> only_A_and_B (fold_left (add_quote self symbol) l acc).
Proof.
  pose proof (proj2 (String.eqb_neq A B) A_not_B) as EAB.
  assert (EBA : String.eqb B A = false) by (apply String.eqb_neq; congruence).
  induction l as [|e r IH]; intros Hother acc Hacc; simpl; auto.
  apply IH; [intros; apply Hother; simpl; auto|].
  unfold add_quote.
  destruct (string_dec e A) as [->|HA]; [|destruct (string_dec e B) as [->|HB]].
  - rewrite quote_A.
    destruct Hacc as [-> | [-> | [-> | [-> | ->]]]]; simpl;
      rewrite ?String.eqb_refl, ?EAB, ?EBA; simpl; auto 6.
  - rewrite quote_B.
    destruct Hacc as [-> | [-> | [-> | [-> | ->]]]]; simpl;
      rewrite ?String.eqb_refl, ?EAB, ?EBA; simpl; auto 6.
  - rewrite (Hother e); simpl; auto.
Qed.

Lemma exchange_prices_fold_mem k v l :
  latest self k symbol = Some v ->
  forall acc, In k l \/ Py.dict_get acc k <> None ->
  Py.dict_get (fold_left (add_quote self symbol) l acc) k <> None.
Proof.
  intros Hk. induction l as [|e r IH]; intros acc H; simpl.
  - destruct H as [[]|H]; auto.
  - apply IH. unfold add_quote. destruct H as [[-> | H] | H]; auto; right.
    + rewrite Hk, dict_get_set_same. discriminate.
    + destruct (latest self e symbol) as [info|]; auto.
      destruct (string_dec e k) as [->|Hne].
      * rewrite dict_get_set_same. discriminate.
      * now rewrite dict_get_set_other.
Qed.

Lemma exchange_prices_two :
  In A (exchanges self) -> In B (exchanges self) ->
  (forall e, In e (exchanges self) -> e <> A -> e <> B -> latest self e symbol = None) ->
  exchange_prices self symbol = [(A, qa); (B, qb)]
  \/ exchange_prices self symbol = [(B, qb); (A, qa)].
Proof.
  intros HA HB Hother.
  pose proof (proj2 (String.eqb_neq A B) A_not_B) as EAB.
  assert (EBA : String.eqb B A = false) by (apply String.eqb_neq; congruence).
  pose proof (exchange_prices_fold_mem A qa (exchanges self) quote_A [] (or_introl HA)) as MA.
  pose proof (exchange_prices_fold_mem B qb (exchanges self) quote_B [] (or_introl HB)) as MB.
  fold (exchange_prices self symbol) in MA, MB.
  destruct (exchange_prices_fold_shape (exchanges self) Hother [] (or_introl eq_refl))
    as [E|[E|[E|[E|E]]]]; fold (exchange_prices self symbol) in E; auto;
    rewrite E in MA, MB; simpl in MA, MB;
    try rewrite EAB in MB; try rewrite EBA in MA; congruence.
Qed.

Lemma cross_exchange_step_same now e q q' :
  cross_exchange_step self now symbol (e, q) (e, q') = Py.Ok None.
Proof. unfold cross_exchange_step. now rewrite String.eqb_refl. Qed.

End TwoExchanges.

(** C8 (as the code has it): let A and B be two exchanges of the analyzer's
    list, the only ones quoting the instrument, with well-formed finite
    quotes (0 < bid <= ask), A's ask below B's bid and zero fees for both.
    If the profit [(B.bid - A.ask) / A.ask * 100] reaches the cross-exchange
    threshold in percent, the scan yields exactly one opportunity: buy on A,
    sell on B, with that [profit_percent].  If it does not, the scan yields
    none. *)
Theorem cross_exchange_two_sources_one_opportunity :
  forall self now symbol A B qa qb threshold,
    let a_ask := ExchangePrice.ask_price qa in
    let b_bid := ExchangePrice.bid_price qb in
    let profit := ((b_bid - a_ask) / a_ask * 100)%float in
    A <> B -> In A (exchanges self) -> In B (exchanges self) ->
    latest self A symbol = Some qa ->
    latest self B symbol = Some qb ->
    (forall e, In e (exchanges self) -> e <> A -> e <> B ->
       latest self e symbol = None) ->
    fee_rate self A = 0%float -> fee_rate self B = 0%float ->
    (0 <? ExchangePrice.bid_price qa)%float = true ->
    (ExchangePrice.bid_price qa <=? a_ask)%float = true ->
    (a_ask <? b_bid)%float = true ->
    (b_bid <=? ExchangePrice.ask_price qb)%float = true ->
    (ExchangePrice.ask_price qb <? infinity)%float = true ->
    Py.dict_get (min_profit_threshold self) "cross_exchange" = Some threshold ->
    find_cross_exchange_arbitrage self now symbol
    = if (threshold * 100 <=? profit)%float then
        [ {| ArbitrageOpportunity.type := "cross_exchange";
             ArbitrageOpportunity.symbol := symbol;
             ArbitrageOpportunity.buy_price := a_ask;
             ArbitrageOpportunity.sell_price := b_bid;
             ArbitrageOpportunity.buy_exchange := A;
             ArbitrageOpportunity.sell_exchange := B;
             ArbitrageOpportunity.spread := (b_bid - a_ask)%float;
             ArbitrageOpportunity.profit_percent := profit;
             ArbitrageOpportunity.volume :=
               Py.min2 (ExchangePrice.volume qa) (ExchangePrice.volume qb);
             ArbitrageOpportunity.timestamp := now;
             ArbitrageOpportunity.confidence := Py.min2 0.9%float (profit / 2)%float |} ]
      else [].
Proof.
  intros self now symbol A B qa qb threshold a_ask b_bid profit
    Hne HA HB Hqa Hqb Hother Hfa Hfb Hpos Hva Hx Hvb Hfin Hthr.
  subst a_ask b_bid profit.
  (* all four prices are positive and finite *)
  pose proof (ltb_leb_trans _ _ _ Hpos Hva) as Pa_ask.
  pose proof (ltb_trans _ _ _ Pa_ask Hx) as Pb_bid.
  pose proof (ltb_leb_trans _ _ _ Pb_bid Hvb) as Pb_ask.
  pose proof (leb_ltb_trans _ _ _ Hvb Hfin) as Fb_bid.
  pose proof (ltb_trans _ _ _ Hx Fb_bid) as Fa_ask.
  pose proof (leb_ltb_trans _ _ _ Hva Fa_ask) as Fa_bid.
  (* the other direction is not crossed *)
  assert (Hback : (ExchangePrice.ask_price qb <? ExchangePrice.bid_price qa)%float = false).
  { destruct (ExchangePrice.ask_price qb <? ExchangePrice.bid_price qa)%float eqn:E; auto.
    pose proof (ltb_trans _ _ _ (ltb_leb_trans _ _ _ E Hva) Hx) as E'.
    apply ltb_not_geb in E'. congruence. }
  match goal with
  | |- _ = if ?reached then [?o] else [] =>
      assert (SAB : cross_exchange_step self now symbol (A, qa) (B, qb)
                    = Py.Ok (if reached then Some o else None))
  end.
  { unfold cross_exchange_step, net_buy_price, net_sell_price.
    apply String.eqb_neq in Hne. rewrite Hne, Hfa, Hfb.
    rewrite add_zero_fee, sub_zero_fee by assumption. rewrite Hx.
    unfold Py.truediv. rewrite positive_finite_not_zero by assumption.
    cbn [Py.bind]. unfold Py.dict_getitem. rewrite Hthr. cbn [Py.bind].
    match goal with
    | |- context [(threshold * 100 <=? ?p)%float] =>
        destruct (threshold * 100 <=? p)%float; reflexivity
    end. }
  assert (SBA : cross_exchange_step self now symbol (B, qb) (A, qa) = Py.Ok None).
  { unfold cross_exchange_step, net_buy_price, net_sell_price.
    assert (Hne' : String.eqb B A = false) by (apply String.eqb_neq; congruence).
    rewrite Hne', Hfa, Hfb.
    rewrite add_zero_fee, sub_zero_fee by assumption. now rewrite Hback. }
  unfold find_cross_exchange_arbitrage.
  destruct (exchange_prices_two self symbol A B qa qb Hne Hqa Hqb HA HB Hother) as [E|E];
    rewrite E; cbn [List.length Nat.ltb Nat.leb flat_map map app];
    rewrite !cross_exchange_step_same, SAB, SBA;
    match goal with
    | |- context [(threshold * 100 <=? ?p)%float] =>
        destruct (threshold * 100 <=? p)%float; reflexivity
    end.
Qed.

Lemma cross_exchange_two_sources_one_opportunity_witness :
  find_cross_exchange_arbitrage (zero_fee_state 102) 5 "BTC-USDT"
  = [ {| ArbitrageOpportunity.type := "cross_exchange";
         ArbitrageOpportunity.symbol := "BTC-USDT";
         ArbitrageOpportunity.buy_price := 100.1;
         ArbitrageOpportunity.sell_price := 102;
         ArbitrageOpportunity.buy_exchange := "OKX";
         ArbitrageOpportunity.sell_exchange := "Binance";
         ArbitrageOpportunity.spread := (102 - 100.1)%float;
         ArbitrageOpportunity.profit_percent := ((102 - 100.1) / 100.1 * 100)%float;
         ArbitrageOpportunity.volume := 1;
         ArbitrageOpportunity.timestamp := 5;
         ArbitrageOpportunity.confidence := 0.9 |} ]
  /\ find_cross_exchange_arbitrage (zero_fee_state 100.4) 5 "BTC-USDT" = [].
Proof.
  split.
  - apply (cross_exchange_two_sources_one_opportunity (zero_fee_state 102) 5 "BTC-USDT"
             "OKX" "Binance"
             (ExchangePrice.mk "OKX" "BTC-USDT" 100 100.1 1 0)
             (ExchangePrice.mk "Binance" "BTC-USDT" 102 (102 + 0.1) 2 1)
             0.005%float);
      try reflexivity; try (simpl; tauto).
    + discriminate.
    + intros e [<-|[<-|[<-|[<-|[<-|[<-|[]]]]]]] HA HB; try congruence; reflexivity.
  - apply (cross_exchange_two_sources_one_opportunity (zero_fee_state 100.4) 5 "BTC-USDT"
             "OKX" "Binance"
             (ExchangePrice.mk "OKX" "BTC-USDT" 100 100.1 1 0)
             (ExchangePrice.mk "Binance" "BTC-USDT" 100.4 (100.4 + 0.1) 2 1)
             0.005%float);
      try reflexivity; try (simpl; tauto).
    + discriminate.
    + intros e [<-|[<-|[<-|[<-|[<-|[<-|[]]]]]]] HA HB; try congruence; reflexivity.
Defined.

(** C8 (as stated) fails: without fees OKX asks 100.1 and Binance bids
    100.5, yet the scan yields no opportunity, the profit of about 0.4%
    being under the threshold of 0.5%. *)
Lemma crossed_quotes_below_threshold :
  option_map ExchangePrice.ask_price (latest (zero_fee_state 100.5) "OKX" "BTC-USDT")
  = Some 100.1%float
  /\ option_map ExchangePrice.bid_price (latest (zero_fee_state 100.5) "Binance" "BTC-USDT")
     = Some 100.5%float
  /\ (100.1 <? 100.5)%float = true
  /\ fee_rate (zero_fee_state 100.5) "OKX" = 0%float
  /\ fee_rate (zero_fee_state 100.5) "Binance" = 0%float
  /\ find_cross_exchange_arbitrage (zero_fee_state 100.5) 5 "BTC-USDT" = [].
Proof. repeat split. Qed.

(** * Further properties of the analyzer *)

(** ** Ingest: other keys, and the agreement of quote and history *)

Lemma latest_update_other self now exchange symbol bid ask volume exchange' symbol' :
  exchange <> exchange' \/ symbol <> symbol' ->
  latest (update_price_data self now exchange symbol bid ask volume) exchange' symbol'
  = latest self exchange' symbol'.
Proof.
  intros Hne. unfold latest, update_price_data; simpl price_data.
  destruct (string_dec exchange exchange') as [<-|Hex].
  - destruct Hne as [Hne|Hne]; [congruence|].
    rewrite dict_get_set_same, dict_get_set_other by assumption.
    pose proof (dict_ensure_same (price_data self) exchange []) as E.
    rewrite E. unfold Py.dict_get_default.
    destruct (Py.dict_get (price_data self) exchange); reflexivity.
  - rewrite dict_get_set_other, dict_ensure_other by assumption. reflexivity.
Qed.

(** X1: an ingest call touches its own key only: the latest quote and the
    history of every other (exchange, symbol) key are what they were. *)
Theorem update_price_data_other_keys :
  forall self now exchange symbol bid ask volume exchange' symbol',
    exchange <> exchange' \/ symbol <> symbol' ->
    latest (update_price_data self now exchange symbol bid ask volume) exchange' symbol'
    = latest self exchange' symbol'
    /\ history (update_price_data self now exchange symbol bid ask volume) exchange' symbol'
       = history self exchange' symbol'.
Proof.
  intros. split.
  - now apply latest_update_other.
  - now apply history_update_other.
Qed.

Lemma update_price_data_other_keys_witness :
  latest (update_price_data two_exchange_state 9 "OKX" "ETH-USDT" 3 4 5) "OKX" "BTC-USDT"
  = latest two_exchange_state "OKX" "BTC-USDT"
  /\ history (update_price_data two_exchange_state 9 "OKX" "ETH-USDT" 3 4 5) "OKX" "BTC-USDT"
     = history two_exchange_state "OKX" "BTC-USDT".
Proof.
  apply (update_price_data_other_keys two_exchange_state 9 "OKX" "ETH-USDT" 3 4 5
           "OKX" "BTC-USDT").
  right. discriminate.
Defined.

Lemma last_n_snoc {A} n (l : list A) x :
  (0 < n)%nat -> exists older, Py.last_n n (l ++ [x]) = older ++ [x].
Proof.
  intros Hn. unfold Py.last_n. rewrite length_app. simpl List.length.
  rewrite skipn_app.
  replace (List.length l + 1 - n - List.length l)%nat with 0%nat by lia.
  eexists. reflexivity.
Qed.

Lemma latest_in_sync_update self now exchange symbol bid ask volume :
  (forall e s, latest_in_sync self e s) ->
  forall e s,
    latest_in_sync (update_price_data self now exchange symbol bid ask volume) e s.
Proof.
  intros H e s. unfold latest_in_sync.
  destruct (string_dec exchange e) as [<-|He]; [destruct (string_dec symbol s) as [<-|Hs]|].
  - rewrite latest_update_same, history_update_same. simpl.
    repeat split. apply last_n_snoc. lia.
  - rewrite latest_update_other, history_update_other by auto. apply H.
  - rewrite latest_update_other, history_update_other by auto. apply H.
Qed.

Lemma latest_scan {np : NumPy} self now exchange symbol :
  latest (fst (generate_arbitrage_signal self now)) exchange symbol
  = latest self exchange symbol.
Proof.
  unfold generate_arbitrage_signal.
  destruct (all_opportunities self now); reflexivity.
Qed.

Lemma latest_in_sync_run_calls {np : NumPy} calls : forall self,
  (forall e s, latest_in_sync self e s) ->
  forall e s, latest_in_sync (run_calls self calls) e s.
Proof.
  unfold run_calls.
  induction calls as [|[u|now] calls IH]; intros self H; simpl; auto.
  - apply IH. unfold apply_update. now apply latest_in_sync_update.
  - apply IH. intros e s. unfold latest_in_sync.
    rewrite latest_scan, history_scan. apply H.
Qed.

(** X2: after any sequence of ingest calls and scans on a fresh analyzer, a
    key without a latest quote has an empty history, and a key with one has
    it as the newest entry of its history; the quote carries the exchange
    and the symbol of its key. *)
Theorem latest_is_newest_history_entry :
  forall (np : NumPy) (calls : list Call) (exchange symbol : string),
    latest_in_sync (run_calls ArbitrageAnalyzer_init calls) exchange symbol.
Proof.
  intros np calls. apply latest_in_sync_run_calls.
  intros e s. reflexivity.
Qed.

(** ** Grades and alerts *)

Section GradeFacts.
Local Open Scope float_scope.

Lemma SFcompare_eq_trans a b c :
  SFcompare a b = Some Eq -> SFcompare b c = Some Eq -> SFcompare a c = Some Eq.
Proof.
  destruct a as [[]|[]| |[] ma ea], b as [[]|[]| |[] mb eb], c as [[]|[]| |[] mc ec];
    simpl; intros H1 H2; try discriminate; try reflexivity;
    injection H1 as H1; injection H2 as H2; f_equal;
    repeat match goal with
      | H : context [Z.compare ?x ?y] |- _ => destruct (Z.compare_spec x y)
      | |- context [Z.compare ?x ?y] => destruct (Z.compare_spec x y)
      | H : context [Pos.compare_cont Eq ?x ?y] |- _ =>
          change (Pos.compare_cont Eq x y) with (Pos.compare x y) in H;
          destruct (Pos.compare_spec x y)
      | |- context [Pos.compare_cont Eq ?x ?y] =>
          change (Pos.compare_cont Eq x y) with (Pos.compare x y);
          destruct (Pos.compare_spec x y)
      end;
    simpl in *; try discriminate; try reflexivity; try lia.
Qed.

Lemma leb_trans x y z : (x <=? y) = true -> (y <=? z) = true -> (x <=? z) = true.
Proof.
  rewrite !leb_spec. unfold SFleb.
  destruct (SFcompare (Prim2SF x) (Prim2SF y)) as [[]|] eqn:E1; try discriminate;
    destruct (SFcompare (Prim2SF y) (Prim2SF z)) as [[]|] eqn:E2; try discriminate;
    intros _ _.
  - now rewrite (SFcompare_eq_trans _ _ _ E1 E2).
  - now rewrite (SFcompare_eq_lt_trans _ _ _ E1 E2).
  - now rewrite (SFcompare_lt_eq_trans _ _ _ E1 E2).
  - now rewrite (SFcompare_lt_trans _ _ _ E1 E2).
Qed.

(** X3: the grade never goes down when the profit goes up. *)
Theorem grade_of_monotone :
  forall p q : float,
    (p <=? q) = true -> (grade_rank (grade_of p) <= grade_rank (grade_of q))%nat.
Proof.
  intros p q Hpq.
  assert (up : forall t, (t <=? p) = true -> (t <=? q) = true)
    by (intros t Ht; exact (leb_trans _ _ _ Ht Hpq)).
  unfold grade_of.
  destruct (10 <=? p) eqn:P10; [rewrite (up _ P10); reflexivity|].
  destruct (5 <=? p) eqn:P5;
    [rewrite (up _ P5); destruct (10 <=? q); cbn; lia|].
  destruct (1 <=? p) eqn:P1;
    [rewrite (up _ P1); destruct (10 <=? q), (5 <=? q); cbn; lia|].
  destruct (0.5 <=? p) eqn:P05;
    [rewrite (up _ P05); destruct (10 <=? q), (5 <=? q), (1 <=? q); cbn; lia|].
  cbn. lia.
Qed.

Lemma grade_of_monotone_witness :
  (grade_rank (grade_of 0.7) <= grade_rank (grade_of 5.5))%nat.
Proof. apply (grade_of_monotone 0.7 5.5). reflexivity. Defined.

Lemma grade_alerts p :
  existsb (String.eqb (grade_of p))
    ["ARBITRAGE_GODLIKE"; "ARBITRAGE_LEGENDARY"; "ARBITRAGE_MEGA"]
  = (1 <=? p).
Proof.
  unfold grade_of.
  destruct (10 <=? p) eqn:P10.
  { rewrite (leb_trans 1 10 p eq_refl P10). reflexivity. }
  destruct (5 <=? p) eqn:P5.
  { rewrite (leb_trans 1 5 p eq_refl P5). reflexivity. }
  destruct (1 <=? p); [reflexivity|].
  destruct (0.5 <=? p); reflexivity.
Qed.

(** X4: the loop of [main] calls [send_arbitrage_alert] exactly when the
    system is running and the scan returned a signal whose profit is at
    least 1 (percent); it counts a signal exactly when the system is running
    and a signal was returned. *)
Theorem alert_iff_profit_at_least_one :
  forall (np : NumPy) self now signal_count system_running,
    let signal := snd (generate_arbitrage_signal self now) in
    snd (handle_signal signal_count signal system_running)
    = match signal with
      | Some s => system_running && (1 <=? s_profit_percent s)
      | None => false
      end
    /\ fst (handle_signal signal_count signal system_running)
       = match signal with
         | Some _ => if system_running then S signal_count else signal_count
         | None => signal_count
         end.
Proof.
  intros np self now signal_count system_running.
  unfold generate_arbitrage_signal.
  destruct (all_opportunities self now) as [|first rest]; cbn; [auto|].
  destruct system_running; cbn; [|auto].
  split; [|reflexivity].
  exact (grade_alerts _).
Qed.

End GradeFacts.

(** ** Cross-exchange scan: what an opportunity says *)

Section CrossExchangeFacts.
Local Open Scope float_scope.

Lemma dict_set_in {V} (d : Py.dict V) k v k' v' :
  In (k', v') (Py.dict_set d k v) -> (k' = k /\ v' = v) \/ In (k', v') d.
Proof.
  induction d as [|[k0 v0] r IH]; simpl.
  - intros [H|[]]. injection H as <- <-. auto.
  - destruct (String.eqb k0 k) eqn:E; simpl.
    + apply String.eqb_eq in E. subst k0.
      intros [H|H]; [injection H as <- <-|]; auto.
    + intros [H|H]; auto. destruct (IH H); auto.
Qed.

Lemma exchange_prices_fold_in self symbol l : forall acc e info,
  In (e, info) (fold_left (add_quote self symbol) l acc) ->
  In (e, info) acc \/ (In e l /\ latest self e symbol = Some info).
Proof.
  induction l as [|x r IH]; intros acc e info H; simpl in *; auto.
  destruct (IH _ _ _ H) as [Hacc|[Hin Hl]]; [|auto].
  unfold add_quote in Hacc.
  destruct (latest self x symbol) as [xi|] eqn:Ex; auto.
  destruct (dict_set_in _ _ _ _ _ Hacc) as [[-> ->]|]; auto.
Qed.

(** The quotes gathered for a symbol are the latest quotes of exchanges of
    the analyzer's list. *)
Lemma exchange_prices_in self symbol e info :
  In (e, info) (exchange_prices self symbol) ->
  In e (exchanges self) /\ latest self e symbol = Some info.
Proof.
  unfold exchange_prices. intros H.
  destruct (exchange_prices_fold_in _ _ _ _ _ _ H) as [[]|]; auto.
Qed.

Lemma cross_exchange_step_emits_all self now symbol buy sell o :
  cross_exchange_step self now symbol buy sell = Py.Ok (Some o) ->
  ArbitrageOpportunity.type o = "cross_exchange"
  /\ ArbitrageOpportunity.symbol o = symbol
  /\ ArbitrageOpportunity.buy_exchange o = fst buy
  /\ ArbitrageOpportunity.sell_exchange o = fst sell
  /\ fst buy <> fst sell
  /\ ArbitrageOpportunity.buy_price o = ExchangePrice.ask_price (snd buy)
  /\ ArbitrageOpportunity.sell_price o = ExchangePrice.bid_price (snd sell)
  /\ (net_buy_price self (fst buy) (ExchangePrice.ask_price (snd buy))
        <? net_sell_price self (fst sell) (ExchangePrice.bid_price (snd sell))) = true
  /\ ArbitrageOpportunity.spread o
     = net_sell_price self (fst sell) (ExchangePrice.bid_price (snd sell))
       - net_buy_price self (fst buy) (ExchangePrice.ask_price (snd buy))
  /\ ArbitrageOpportunity.confidence o
     = Py.min2 0.9 (ArbitrageOpportunity.profit_percent o / 2).
Proof.
  destruct buy as [buy_exchange buy_info], sell as [sell_exchange sell_info].
  unfold cross_exchange_step.
  destruct (String.eqb buy_exchange sell_exchange) eqn:Ee; [discriminate|].
  apply String.eqb_neq in Ee.
  destruct (_ <? _) eqn:Elt; [|discriminate].
  unfold Py.truediv. destruct (is_zero _); [discriminate|]. cbn [Py.bind].
  unfold Py.dict_getitem.
  destruct (Py.dict_get (min_profit_threshold self) "cross_exchange") as [threshold|];
    [|discriminate].
  cbn [Py.bind]. destruct (_ <=? _); [|discriminate].
  intros H. injection H as <-. cbn. repeat split; auto.
Qed.

(** X5: every opportunity of the cross-exchange scan is for the scanned
    symbol, buys on one exchange of the analyzer's list and sells on a
    different one; its prices are the raw latest ask of the buying exchange
    and the raw latest bid of the selling exchange, the selling price net of
    fees exceeds the buying price with fees, and the spread is their
    difference. *)
Theorem cross_exchange_opportunity_sound :
  forall self now symbol o,
    In o (find_cross_exchange_arbitrage self now symbol) ->
    ArbitrageOpportunity.type o = "cross_exchange"
    /\ ArbitrageOpportunity.symbol o = symbol
    /\ ArbitrageOpportunity.buy_exchange o <> ArbitrageOpportunity.sell_exchange o
    /\ In (ArbitrageOpportunity.buy_exchange o) (exchanges self)
    /\ In (ArbitrageOpportunity.sell_exchange o) (exchanges self)
    /\ exists buy_info sell_info,
         latest self (ArbitrageOpportunity.buy_exchange o) symbol = Some buy_info
         /\ latest self (ArbitrageOpportunity.sell_exchange o) symbol = Some sell_info
         /\ ArbitrageOpportunity.buy_price o = ExchangePrice.ask_price buy_info
         /\ ArbitrageOpportunity.sell_price o = ExchangePrice.bid_price sell_info
         /\ (net_buy_price self (ArbitrageOpportunity.buy_exchange o)
               (ArbitrageOpportunity.buy_price o)
             <? net_sell_price self (ArbitrageOpportunity.sell_exchange o)
                  (ArbitrageOpportunity.sell_price o)) = true
         /\ ArbitrageOpportunity.spread o
            = net_sell_price self (ArbitrageOpportunity.sell_exchange o)
                (ArbitrageOpportunity.sell_price o)
              - net_buy_price self (ArbitrageOpportunity.buy_exchange o)
                  (ArbitrageOpportunity.buy_price o).
Proof.
  intros self now symbol o H.
  apply find_cross_exchange_arbitrage_in in H.
  destruct H as ([be bi] & [se si] & Hb & Hs & H).
  apply exchange_prices_in in Hb, Hs. destruct Hb as [Hb1 Hb2], Hs as [Hs1 Hs2].
  apply cross_exchange_step_emits_all in H. cbn [fst snd] in H.
  destruct H as (Ht & Hsym & Hbe & Hse & Hne & Hbp & Hsp & Hlt & Hspread & _).
  rewrite Hbe, Hse, Hbp, Hsp.
  repeat split; auto. exists bi, si. repeat split; auto.
Qed.

Lemma cross_exchange_opportunity_sound_witness :
  let o := two_exchange_opportunity in
  ArbitrageOpportunity.type o = "cross_exchange"
  /\ ArbitrageOpportunity.symbol o = "BTC-USDT"
  /\ ArbitrageOpportunity.buy_exchange o <> ArbitrageOpportunity.sell_exchange o
  /\ In (ArbitrageOpportunity.buy_exchange o) (exchanges two_exchange_state)
  /\ In (ArbitrageOpportunity.sell_exchange o) (exchanges two_exchange_state)
  /\ exists buy_info sell_info,
       latest two_exchange_state (ArbitrageOpportunity.buy_exchange o) "BTC-USDT"
       = Some buy_info
       /\ latest two_exchange_state (ArbitrageOpportunity.sell_exchange o) "BTC-USDT"
          = Some sell_info
       /\ ArbitrageOpportunity.buy_price o = ExchangePrice.ask_price buy_info
       /\ ArbitrageOpportunity.sell_price o = ExchangePrice.bid_price sell_info
       /\ (net_buy_price two_exchange_state (ArbitrageOpportunity.buy_exchange o)
             (ArbitrageOpportunity.buy_price o)
           <? net_sell_price two_exchange_state (ArbitrageOpportunity.sell_exchange o)
                (ArbitrageOpportunity.sell_price o)) = true
       /\ ArbitrageOpportunity.spread o
          = net_sell_price two_exchange_state (ArbitrageOpportunity.sell_exchange o)
              (ArbitrageOpportunity.sell_price o)
            - net_buy_price two_exchange_state (ArbitrageOpportunity.buy_exchange o)
                (ArbitrageOpportunity.buy_price o).
Proof.
  apply (cross_exchange_opportunity_sound two_exchange_state 5 "BTC-USDT"
           two_exchange_opportunity).
  vm_compute. left. reflexivity.
Defined.

(** X6: when at most one exchange of the list quotes a symbol, the
    cross-exchange scan finds nothing for it. *)
Theorem cross_exchange_needs_two_sources :
  forall self now symbol,
    (forall e1 e2 q1 q2,
       In e1 (exchanges self) -> In e2 (exchanges self) ->
       latest self e1 symbol = Some q1 -> latest self e2 symbol = Some q2 ->
       e1 = e2) ->
    find_cross_exchange_arbitrage self now symbol = [].
Proof.
  intros self now symbol Hone.
  destruct (find_cross_exchange_arbitrage self now symbol) as [|o rest] eqn:E; auto.
  assert (Hin : In o (find_cross_exchange_arbitrage self now symbol))
    by (rewrite E; left; reflexivity).
  apply find_cross_exchange_arbitrage_in in Hin.
  destruct Hin as ([be bi] & [se si] & Hb & Hs & H).
  apply exchange_prices_in in Hb, Hs. destruct Hb as [Hb1 Hb2], Hs as [Hs1 Hs2].
  apply cross_exchange_step_emits_all in H. cbn [fst snd] in H.
  destruct H as (_ & _ & _ & _ & Hne & _).
  elim Hne. exact (Hone _ _ _ _ Hb1 Hs1 Hb2 Hs2).
Qed.

End CrossExchangeFacts.

Lemma cross_exchange_needs_two_sources_witness :
  find_cross_exchange_arbitrage crossed_quote_state 5 "BTC-USDT" = [].
Proof.
  apply (cross_exchange_needs_two_sources crossed_quote_state 5 "BTC-USDT").
  intros e1 e2 q1 q2 H1 H2.
  simpl in H1, H2.
  destruct H1 as [<-|[<-|[<-|[<-|[<-|[<-|[]]]]]]];
    destruct H2 as [<-|[<-|[<-|[<-|[<-|[<-|[]]]]]]];
    vm_compute; intros; congruence.
Defined.

(** ** Triangular, statistical and future-spot scans: what an opportunity says *)

Section ScanSoundness.
Local Open Scope float_scope.

Lemma triangular_step_emits self now base prices symbol1 symbol2 o :
  triangular_step self now base prices symbol1 symbol2 = Py.Ok (Some o) ->
  let currency1 := Py.str_replace symbol1 ("-" ++ base) "" in
  let currency2 := Py.str_replace symbol2 ("-" ++ base) "" in
  currency1 <> currency2
  /\ exists price1 price2 cross threshold,
       Py.dict_get prices symbol1 = Some price1
       /\ Py.dict_get prices symbol2 = Some price2
       /\ Py.dict_get prices (currency1 ++ "-" ++ currency2)%string = Some cross
       /\ Py.dict_get (min_profit_threshold self) "triangular" = Some threshold
       /\ (ExchangePrice.ask_price cross * 1.001
             <? ExchangePrice.bid_price price1 / ExchangePrice.ask_price price2) = true
       /\ (threshold * 100 <=? ArbitrageOpportunity.profit_percent o) = true
       /\ o = {| ArbitrageOpportunity.type := "triangular";
                 ArbitrageOpportunity.symbol :=
                   (currency1 ++ "-" ++ currency2 ++ "-" ++ base)%string;
                 ArbitrageOpportunity.buy_price := ExchangePrice.ask_price cross;
                 ArbitrageOpportunity.sell_price :=
                   ExchangePrice.bid_price price1 / ExchangePrice.ask_price price2;
                 ArbitrageOpportunity.buy_exchange := "OKX";
                 ArbitrageOpportunity.sell_exchange := "OKX";
                 ArbitrageOpportunity.spread :=
                   ExchangePrice.bid_price price1 / ExchangePrice.ask_price price2
                   - ExchangePrice.ask_price cross;
                 ArbitrageOpportunity.profit_percent :=
                   (ExchangePrice.bid_price price1 / ExchangePrice.ask_price price2
                    - ExchangePrice.ask_price cross)
                   / ExchangePrice.ask_price cross * 100;
                 ArbitrageOpportunity.volume :=
                   Py.min3 (ExchangePrice.volume price1) (ExchangePrice.volume price2)
                     (ExchangePrice.volume cross);
                 ArbitrageOpportunity.timestamp := now;
                 ArbitrageOpportunity.confidence := 0.8 |}.
Proof.
  unfold triangular_step. cbv zeta.
  destruct (String.eqb _ _) eqn:Ene; [discriminate|].
  apply String.eqb_neq in Ene.
  unfold Py.dict_mem, Py.dict_getitem, Py.truediv.
  set (cross1 := (Py.str_replace symbol1 _ "" ++ "-" ++ Py.str_replace symbol2 _ "")%string).
  set (cross2 := (Py.str_replace symbol2 _ "" ++ "-" ++ Py.str_replace symbol1 _ "")%string).
  destruct (Py.dict_get prices cross1) as [cross|] eqn:Ec.
  - destruct (Py.dict_get prices symbol1) as [price1|]; [|discriminate].
    destruct (Py.dict_get prices symbol2) as [price2|]; [|discriminate].
    cbn [Py.bind]. rewrite Ec. cbn [Py.bind].
    destruct (is_zero (ExchangePrice.ask_price price2)); [discriminate|].
    cbn [Py.bind]. destruct (_ <? _) eqn:Em; [|discriminate].
    destruct (is_zero (ExchangePrice.ask_price cross)); [discriminate|].
    cbn [Py.bind].
    destruct (Py.dict_get (min_profit_threshold self) "triangular") as [threshold|];
      [|discriminate].
    cbn [Py.bind]. destruct (_ <=? _) eqn:Ep; [|discriminate].
    intros H. injection H as <-. split; [exact Ene|].
    exists price1, price2, cross, threshold. repeat split; auto.
  - destruct (Py.dict_get prices cross2) as [cross|] eqn:Ec'; [|discriminate].
    destruct (Py.dict_get prices symbol1) as [price1|]; [|discriminate].
    destruct (Py.dict_get prices symbol2) as [price2|]; [|discriminate].
    cbn [Py.bind]. rewrite Ec'. discriminate.
Qed.

(** X7: every opportunity of the triangular scan comes from OKX alone: two
    OKX symbols ending with the base currency, of different currencies,
    whose direct cross is quoted on OKX; the implied rate exceeds the cross
    ask by more than 0.1%, the profit in percent reaches the triangular
    threshold, and the opportunity buys at the cross ask and sells at the
    implied rate, both on OKX. *)
Theorem triangular_opportunity_sound :
  forall self now base o,
    In o (find_triangular_arbitrage self now base) ->
    exists prices symbol1 symbol2 price1 price2 cross threshold,
      let currency1 := Py.str_replace symbol1 ("-" ++ base) "" in
      let currency2 := Py.str_replace symbol2 ("-" ++ base) "" in
      let theoretical :=
        ExchangePrice.bid_price price1 / ExchangePrice.ask_price price2 in
      let actual := ExchangePrice.ask_price cross in
      Py.dict_get (price_data self) "OKX" = Some prices
      /\ Py.dict_get prices symbol1 = Some price1
      /\ Py.dict_get prices symbol2 = Some price2
      /\ Py.str_endswith symbol1 ("-" ++ base) = true
      /\ Py.str_endswith symbol2 ("-" ++ base) = true
      /\ currency1 <> currency2
      /\ Py.dict_get prices (currency1 ++ "-" ++ currency2)%string = Some cross
      /\ Py.dict_get (min_profit_threshold self) "triangular" = Some threshold
      /\ (actual * 1.001 <? theoretical) = true
      /\ (threshold * 100 <=? ArbitrageOpportunity.profit_percent o) = true
      /\ ArbitrageOpportunity.profit_percent o = (theoretical - actual) / actual * 100
      /\ ArbitrageOpportunity.type o = "triangular"
      /\ ArbitrageOpportunity.buy_exchange o = "OKX"
      /\ ArbitrageOpportunity.sell_exchange o = "OKX"
      /\ ArbitrageOpportunity.buy_price o = actual
      /\ ArbitrageOpportunity.sell_price o = theoretical.
Proof.
  intros self now base o. unfold find_triangular_arbitrage.
  destruct (Py.dict_get (price_data self) "OKX") as [prices|]; [|intros []].
  intros H. apply collect_in in H. unfold triangular_steps in H.
  apply in_flat_map in H. destruct H as (symbol1 & _ & H).
  destruct (Py.str_endswith symbol1 _) eqn:E1; [|destruct H].
  apply in_flat_map in H. destruct H as (symbol2 & _ & H).
  destruct (Py.str_endswith symbol2 _) eqn:E2; [|destruct H].
  destruct H as [H|[]].
  apply triangular_step_emits in H.
  destruct H as (Hne & price1 & price2 & cross & threshold
                 & H1 & H2 & Hc & Ht & Hm & Hp & ->).
  exists prices, symbol1, symbol2, price1, price2, cross, threshold.
  cbn. repeat split; auto.
Qed.

Lemma future_spot_step_emits self now symbol o :
  future_spot_step self now symbol = Py.Ok (Some o) ->
  exists spot future threshold,
    let spread := ExchangePrice.bid_price future - ExchangePrice.ask_price spot in
    latest self "OKX" symbol = Some spot
    /\ latest self "OKX" (Py.str_replace symbol "-USDT" "-USDT-SWAP") = Some future
    /\ Py.dict_get (min_profit_threshold self) "future_spot" = Some threshold
    /\ (ExchangePrice.ask_price spot * threshold <? abs spread) = true
    /\ ArbitrageOpportunity.type o = "future_spot"
    /\ ArbitrageOpportunity.buy_exchange o = "OKX"
    /\ ArbitrageOpportunity.sell_exchange o = "OKX"
    /\ ArbitrageOpportunity.confidence o = 0.85
    /\ ArbitrageOpportunity.spread o = abs spread
    /\ ArbitrageOpportunity.profit_percent o
       = abs spread / ExchangePrice.ask_price spot * 100
    /\ (if 0 <? spread
        then ArbitrageOpportunity.buy_price o = ExchangePrice.ask_price spot
             /\ ArbitrageOpportunity.sell_price o = ExchangePrice.bid_price future
        else ArbitrageOpportunity.buy_price o = ExchangePrice.ask_price future
             /\ ArbitrageOpportunity.sell_price o = ExchangePrice.bid_price spot).
Proof.
  unfold future_spot_step.
  destruct (latest self "OKX" symbol) as [spot|]; [|discriminate].
  destruct (latest self "OKX" (Py.str_replace symbol "-USDT" "-USDT-SWAP"))
    as [future|]; [|discriminate].
  unfold Py.dict_getitem, Py.truediv.
  destruct (Py.dict_get (min_profit_threshold self) "future_spot") as [threshold|];
    [|discriminate].
  cbn [Py.bind]. destruct (_ <? abs _) eqn:Eb; [|discriminate].
  destruct (is_zero _); [discriminate|]. cbn [Py.bind].
  intros H. exists spot, future, threshold. cbv zeta.
  destruct (0 <? _); injection H as <-; cbn; repeat split; auto.
Qed.

(** X8: the future-spot scan of a symbol returns at most one opportunity,
    and one only when OKX quotes both the symbol and its swap and the gap
    between the swap's bid and the spot's ask exceeds, in absolute value,
    the spot ask times the future-spot threshold.  The spread is that
    absolute gap; a positive gap buys the spot at its ask and sells the swap
    at its bid, any other gap buys the swap at its ask and sells the spot at
    its bid. *)
Theorem future_spot_opportunity_sound :
  forall self now symbol o,
    In o (find_future_spot_arbitrage self now symbol) ->
    find_future_spot_arbitrage self now symbol = [o]
    /\ exists spot future threshold,
         let gap := ExchangePrice.bid_price future - ExchangePrice.ask_price spot in
         latest self "OKX" symbol = Some spot
         /\ latest self "OKX" (Py.str_replace symbol "-USDT" "-USDT-SWAP") = Some future
         /\ Py.dict_get (min_profit_threshold self) "future_spot" = Some threshold
         /\ (ExchangePrice.ask_price spot * threshold <? abs gap) = true
         /\ ArbitrageOpportunity.type o = "future_spot"
         /\ ArbitrageOpportunity.buy_exchange o = "OKX"
         /\ ArbitrageOpportunity.sell_exchange o = "OKX"
         /\ ArbitrageOpportunity.confidence o = 0.85
         /\ ArbitrageOpportunity.spread o = abs gap
         /\ ArbitrageOpportunity.profit_percent o
            = abs gap / ExchangePrice.ask_price spot * 100
         /\ (if 0 <? gap
             then ArbitrageOpportunity.buy_price o = ExchangePrice.ask_price spot
                  /\ ArbitrageOpportunity.sell_price o = ExchangePrice.bid_price future
             else ArbitrageOpportunity.buy_price o = ExchangePrice.ask_price future
                  /\ ArbitrageOpportunity.sell_price o = ExchangePrice.bid_price spot).
Proof.
  intros self now symbol o. unfold find_future_spot_arbitrage.
  destruct (future_spot_step self now symbol) as [[o'|]|e] eqn:E; cbn.
  - intros [->|[]]. split; [reflexivity|].
    now apply (future_spot_step_emits self now symbol).
  - intros [].
  - intros [].
Qed.

End ScanSoundness.

Section StatisticalSoundness.
Context {np : NumPy}.
Local Open Scope float_scope.

Lemma statistical_step_emits_all self now symbol1 symbol2 exchange o :
  statistical_step self now symbol1 symbol2 exchange = Py.Ok (Some o) ->
  exists price1 price2 hist1 hist2 threshold,
    let ratio := ratio_series hist1 hist2 in
    let current_ratio :=
      ExchangePrice.bid_price price1 / ExchangePrice.ask_price price2 in
    let z_score := (current_ratio - np_mean ratio) / np_std ratio in
    latest self exchange symbol1 = Some price1
    /\ latest self exchange symbol2 = Some price2
    /\ history_opt self exchange symbol1 = Some hist1
    /\ history_opt self exchange symbol2 = Some hist2
    /\ (50 < List.length hist1)%nat /\ (50 < List.length hist2)%nat
    /\ (2 <? abs z_score) = true
    /\ Py.dict_get (min_profit_threshold self) "statistical" = Some threshold
    /\ (threshold * 100 <=? ArbitrageOpportunity.profit_percent o) = true
    /\ ArbitrageOpportunity.profit_percent o
       = abs z_score * np_std ratio / current_ratio * 100
    /\ ArbitrageOpportunity.type o = "statistical"
    /\ ArbitrageOpportunity.buy_exchange o = exchange
    /\ ArbitrageOpportunity.sell_exchange o = exchange
    /\ ArbitrageOpportunity.confidence o = Py.min2 0.9 (abs z_score / 3)
    /\ (if 0 <? z_score
        then ArbitrageOpportunity.symbol o = (symbol2 ++ "_" ++ symbol1)%string
             /\ ArbitrageOpportunity.buy_price o = ExchangePrice.ask_price price2
             /\ ArbitrageOpportunity.sell_price o = ExchangePrice.bid_price price1
        else ArbitrageOpportunity.symbol o = (symbol1 ++ "_" ++ symbol2)%string
             /\ ArbitrageOpportunity.buy_price o = ExchangePrice.ask_price price1
             /\ ArbitrageOpportunity.sell_price o = ExchangePrice.bid_price price2).
Proof.
  unfold statistical_step.
  destruct (latest self exchange symbol1) as [price1|]; [|discriminate].
  destruct (latest self exchange symbol2) as [price2|]; [|discriminate].
  destruct (history_opt self exchange symbol1) as [hist1|]; [|discriminate].
  destruct (history_opt self exchange symbol2) as [hist2|]; [|discriminate].
  destruct (_ && _)%bool eqn:Elen; [|discriminate].
  apply andb_true_iff in Elen. destruct Elen as [L1 L2].
  apply Nat.ltb_lt in L1, L2.
  unfold Py.truediv. destruct (is_zero (ExchangePrice.ask_price price2)); [discriminate|].
  cbn [Py.bind]. cbv zeta.
  destruct (2 <? _) eqn:Ez; [|discriminate].
  unfold Py.dict_getitem.
  destruct (Py.dict_get (min_profit_threshold self) "statistical") as [threshold|];
    [|discriminate].
  cbn [Py.bind]. destruct (_ <=? _) eqn:Ep; [|discriminate].
  intros H. exists price1, price2, hist1, hist2, threshold. cbv zeta.
  destruct (0 <? _); injection H as <-; cbn; repeat split; auto.
Qed.

(** X9: every opportunity of the statistical scan comes from one exchange of
    the analyzer's list that quotes BTC-USDT and ETH-USDT and holds more
    than 50 history entries for each; the z-score of the current ratio
    exceeds 2 in absolute value and the profit in percent reaches the
    statistical threshold.  A positive z-score buys ETH-USDT at its ask and
    sells BTC-USDT at its bid, any other buys BTC-USDT and sells ETH-USDT. *)
Theorem statistical_opportunity_sound :
  forall self now o,
    In o (find_statistical_arbitrage self now) ->
    exists exchange price1 price2 hist1 hist2 threshold,
      let ratio := ratio_series hist1 hist2 in
      let current_ratio :=
        ExchangePrice.bid_price price1 / ExchangePrice.ask_price price2 in
      let z_score := (current_ratio - np_mean ratio) / np_std ratio in
      In exchange (exchanges self)
      /\ latest self exchange "BTC-USDT" = Some price1
      /\ latest self exchange "ETH-USDT" = Some price2
      /\ history_opt self exchange "BTC-USDT" = Some hist1
      /\ history_opt self exchange "ETH-USDT" = Some hist2
      /\ (50 < List.length hist1)%nat /\ (50 < List.length hist2)%nat
      /\ (2 <? abs z_score) = true
      /\ Py.dict_get (min_profit_threshold self) "statistical" = Some threshold
      /\ (threshold * 100 <=? ArbitrageOpportunity.profit_percent o) = true
      /\ ArbitrageOpportunity.profit_percent o
         = abs z_score * np_std ratio / current_ratio * 100
      /\ ArbitrageOpportunity.type o = "statistical"
      /\ ArbitrageOpportunity.buy_exchange o = exchange
      /\ ArbitrageOpportunity.sell_exchange o = exchange
      /\ ArbitrageOpportunity.confidence o = Py.min2 0.9 (abs z_score / 3)
      /\ (if 0 <? z_score
          then ArbitrageOpportunity.symbol o = "ETH-USDT_BTC-USDT"
               /\ ArbitrageOpportunity.buy_price o = ExchangePrice.ask_price price2
               /\ ArbitrageOpportunity.sell_price o = ExchangePrice.bid_price price1
          else ArbitrageOpportunity.symbol o = "BTC-USDT_ETH-USDT"
               /\ ArbitrageOpportunity.buy_price o = ExchangePrice.ask_price price1
               /\ ArbitrageOpportunity.sell_price o = ExchangePrice.bid_price price2).
Proof.
  intros self now o H. apply find_statistical_arbitrage_in in H.
  destruct H as (exchange & Hin & H).
  apply statistical_step_emits_all in H.
  destruct H as (price1 & price2 & hist1 & hist2 & threshold & H).
  exists exchange, price1, price2, hist1, hist2, threshold. cbv zeta in *.
  split; [exact Hin|]. exact H.
Qed.

End StatisticalSoundness.

Lemma triangular_opportunity_sound_witness :
  let self := triangle_state 1.5 in
  let base := "USDT" in
  let o := triangle_opportunity in
  exists prices symbol1 symbol2 price1 price2 cross threshold,
    let currency1 := Py.str_replace symbol1 ("-" ++ base) "" in
    let currency2 := Py.str_replace symbol2 ("-" ++ base) "" in
    let theoretical :=
      (ExchangePrice.bid_price price1 / ExchangePrice.ask_price price2)%float in
    let actual := ExchangePrice.ask_price cross in
    Py.dict_get (price_data self) "OKX" = Some prices
    /\ Py.dict_get prices symbol1 = Some price1
    /\ Py.dict_get prices symbol2 = Some price2
    /\ Py.str_endswith symbol1 ("-" ++ base) = true
    /\ Py.str_endswith symbol2 ("-" ++ base) = true
    /\ currency1 <> currency2
    /\ Py.dict_get prices (currency1 ++ "-" ++ currency2)%string = Some cross
    /\ Py.dict_get (min_profit_threshold self) "triangular" = Some threshold
    /\ (actual * 1.001 <? theoretical)%float = true
    /\ (threshold * 100 <=? ArbitrageOpportunity.profit_percent o)%float = true
    /\ ArbitrageOpportunity.profit_percent o
       = ((theoretical - actual) / actual * 100)%float
    /\ ArbitrageOpportunity.type o = "triangular"
    /\ ArbitrageOpportunity.buy_exchange o = "OKX"
    /\ ArbitrageOpportunity.sell_exchange o = "OKX"
    /\ ArbitrageOpportunity.buy_price o = actual
    /\ ArbitrageOpportunity.sell_price o = theoretical.
Proof.
  apply (triangular_opportunity_sound (triangle_state 1.5) 5 "USDT" triangle_opportunity).
  vm_compute. left. reflexivity.
Defined.

Lemma future_spot_opportunity_sound_witness :
  let self := swap_state in
  let symbol := "BTC-USDT" in
  let o := swap_opportunity in
  find_future_spot_arbitrage self 5 symbol = [o]
  /\ exists spot future threshold,
       let gap :=
         (ExchangePrice.bid_price future - ExchangePrice.ask_price spot)%float in
       latest self "OKX" symbol = Some spot
       /\ latest self "OKX" (Py.str_replace symbol "-USDT" "-USDT-SWAP") = Some future
       /\ Py.dict_get (min_profit_threshold self) "future_spot" = Some threshold
       /\ (ExchangePrice.ask_price spot * threshold <? abs gap)%float = true
       /\ ArbitrageOpportunity.type o = "future_spot"
       /\ ArbitrageOpportunity.buy_exchange o = "OKX"
       /\ ArbitrageOpportunity.sell_exchange o = "OKX"
       /\ ArbitrageOpportunity.confidence o = 0.85%float
       /\ ArbitrageOpportunity.spread o = abs gap
       /\ ArbitrageOpportunity.profit_percent o
          = (abs gap / ExchangePrice.ask_price spot * 100)%float
       /\ (if (0 <? gap)%float
           then ArbitrageOpportunity.buy_price o = ExchangePrice.ask_price spot
                /\ ArbitrageOpportunity.sell_price o = ExchangePrice.bid_price future
           else ArbitrageOpportunity.buy_price o = ExchangePrice.ask_price future
                /\ ArbitrageOpportunity.sell_price o = ExchangePrice.bid_price spot).
Proof.
  apply (future_spot_opportunity_sound swap_state 5 "BTC-USDT" swap_opportunity).
  vm_compute. left. reflexivity.
Defined.

Lemma statistical_opportunity_sound_witness :
  let np := textbook_numpy in
  let self := moving_market_state in
  let o := moving_opportunity in
  exists exchange price1 price2 hist1 hist2 threshold,
    let ratio := ratio_series hist1 hist2 in
    let current_ratio :=
      (ExchangePrice.bid_price price1 / ExchangePrice.ask_price price2)%float in
    let z_score := ((current_ratio - np_mean ratio) / np_std ratio)%float in
    In exchange (exchanges self)
    /\ latest self exchange "BTC-USDT" = Some price1
    /\ latest self exchange "ETH-USDT" = Some price2
    /\ history_opt self exchange "BTC-USDT" = Some hist1
    /\ history_opt self exchange "ETH-USDT" = Some hist2
    /\ (50 < List.length hist1)%nat /\ (50 < List.length hist2)%nat
    /\ (2 <? abs z_score)%float = true
    /\ Py.dict_get (min_profit_threshold self) "statistical" = Some threshold
    /\ (threshold * 100 <=? ArbitrageOpportunity.profit_percent o)%float = true
    /\ ArbitrageOpportunity.profit_percent o
       = (abs z_score * np_std ratio / current_ratio * 100)%float
    /\ ArbitrageOpportunity.type o = "statistical"
    /\ ArbitrageOpportunity.buy_exchange o = exchange
    /\ ArbitrageOpportunity.sell_exchange o = exchange
    /\ ArbitrageOpportunity.confidence o = Py.min2 0.9 (abs z_score / 3)%float
    /\ (if (0 <? z_score)%float
        then ArbitrageOpportunity.symbol o = "ETH-USDT_BTC-USDT"
             /\ ArbitrageOpportunity.buy_price o = ExchangePrice.ask_price price2
             /\ ArbitrageOpportunity.sell_price o = ExchangePrice.bid_price price1
        else ArbitrageOpportunity.symbol o = "BTC-USDT_ETH-USDT"
             /\ ArbitrageOpportunity.buy_price o = ExchangePrice.ask_price price1
             /\ ArbitrageOpportunity.sell_price o = ExchangePrice.bid_price price2).
Proof.
  apply (@statistical_opportunity_sound textbook_numpy moving_market_state 5
           moving_opportunity).
  vm_compute. left. reflexivity.
Defined.

(** ** All scans together *)

Section AllScans.
Context {np : NumPy}.
Local Open Scope float_scope.

Lemma find_triangular_arbitrage_in self now base o :
  In o (find_triangular_arbitrage self now base) ->
  exists prices symbol1 symbol2,
    triangular_step self now base prices symbol1 symbol2 = Py.Ok (Some o).
Proof.
  unfold find_triangular_arbitrage.
  destruct (Py.dict_get (price_data self) "OKX") as [prices|]; [|intros []].
  intros H. apply collect_in in H. unfold triangular_steps in H.
  apply in_flat_map in H. destruct H as (symbol1 & _ & H).
  destruct (Py.str_endswith symbol1 _); [|destruct H].
  apply in_flat_map in H. destruct H as (symbol2 & _ & H).
  destruct (Py.str_endswith symbol2 _); [|destruct H].
  destruct H as [H|[]]. eauto.
Qed.

Lemma find_future_spot_arbitrage_in self now symbol o :
  In o (find_future_spot_arbitrage self now symbol) ->
  future_spot_step self now symbol = Py.Ok (Some o).
Proof.
  unfold find_future_spot_arbitrage.
  destruct (future_spot_step self now symbol) as [[o'|]|e]; cbn.
  - intros [->|[]]. reflexivity.
  - intros [].
  - intros [].
Qed.

Lemma min2_cap x : (Py.min2 0.9 x <=? 0.9) = true.
Proof.
  unfold Py.min2. destruct (x <? 0.9) eqn:E.
  - now apply ltb_leb.
  - reflexivity.
Qed.

(** What every opportunity of [all_opportunities] has, whichever scan found
    it. *)
Lemma all_opportunities_facts self now o :
  In o (all_opportunities self now) ->
  (ArbitrageOpportunity.type o = "cross_exchange"
   \/ ArbitrageOpportunity.type o = "triangular"
   \/ ArbitrageOpportunity.type o = "statistical"
   \/ ArbitrageOpportunity.type o = "future_spot")
  /\ (ArbitrageOpportunity.confidence o <=? 0.9) = true.
Proof.
  unfold all_opportunities. intros H.
  apply in_app_or in H. destruct H as [H|H].
  - apply in_flat_map in H. destruct H as (symbol & _ & H).
    apply in_app_or in H. destruct H as [H|H].
    + apply find_cross_exchange_arbitrage_in in H.
      destruct H as (buy & sell & _ & _ & H).
      apply cross_exchange_step_emits_all in H.
      destruct H as (Ht & _ & _ & _ & _ & _ & _ & _ & _ & Hc).
      split; [auto|]. rewrite Hc. apply min2_cap.
    + apply find_future_spot_arbitrage_in, future_spot_step_emits in H.
      destruct H as (spot & future & threshold & _ & _ & _ & _ & Ht & _ & _ & Hc & _).
      split; [auto|]. now rewrite Hc.
  - apply in_app_or in H. destruct H as [H|H].
    + apply find_triangular_arbitrage_in in H.
      destruct H as (prices & symbol1 & symbol2 & H).
      apply triangular_step_emits in H.
      destruct H as (_ & price1 & price2 & cross & threshold & _ & _ & _ & _ & _ & _ & ->).
      split; [auto|]. reflexivity.
    + apply find_statistical_arbitrage_in in H. destruct H as (exchange & _ & H).
      apply statistical_step_emits_all in H.
      destruct H as (price1 & price2 & hist1 & hist2 & threshold & H).
      cbv zeta in H.
      destruct H as (_ & _ & _ & _ & _ & _ & _ & _ & _ & _ & Ht & _ & _ & Hc & _).
      split; [auto|]. rewrite Hc. apply min2_cap.
Qed.

(** X10: no scan reports a confidence above 0.9. *)
Theorem confidence_at_most_090 :
  forall self now,
    Forall (fun o => (ArbitrageOpportunity.confidence o <=? 0.9) = true)
      (all_opportunities self now).
Proof.
  intros self now. apply Forall_forall. intros o H.
  now apply all_opportunities_facts in H.
Qed.

Lemma count_types_total (l : list ArbitrageOpportunity.t) :
  (forall o, In o l ->
     ArbitrageOpportunity.type o = "cross_exchange"
     \/ ArbitrageOpportunity.type o = "triangular"
     \/ ArbitrageOpportunity.type o = "statistical"
     \/ ArbitrageOpportunity.type o = "future_spot") ->
  (count_type "cross_exchange" l + count_type "triangular" l
   + count_type "statistical" l + count_type "future_spot" l)%nat
  = List.length l.
Proof.
  unfold count_type. induction l as [|o r IH]; intros H; [reflexivity|].
  specialize (IH (fun o' Ho' => H o' (or_intror Ho'))).
  destruct (H o (or_introl eq_refl)) as [E|[E|[E|E]]];
    cbn [filter List.length]; rewrite E; cbn; lia.
Qed.

(** X11: the four counts by type of a signal add up to its total: every
    opportunity found is of one of the four types. *)
Theorem counts_by_type_add_up :
  forall self now,
    match snd (generate_arbitrage_signal self now) with
    | Some s =>
        (n_cross_exchange (s_opportunities_by_type s)
         + n_triangular (s_opportunities_by_type s)
         + n_statistical (s_opportunities_by_type s)
         + n_future_spot (s_opportunities_by_type s))%nat
        = s_total_opportunities s
    | None => all_opportunities self now = []
    end.
Proof.
  intros self now. unfold generate_arbitrage_signal.
  destruct (all_opportunities self now) as [|first rest] eqn:E; [reflexivity|].
  cbn. apply (count_types_total (first :: rest)).
  intros o Ho. rewrite <- E in Ho. now apply all_opportunities_facts in Ho.
Qed.

(** X12: the list of retained opportunities only grows at its end, by at
    most one opportunity per scan; ingest calls never touch it. *)
Theorem arbitrage_opportunities_append_only :
  forall self calls,
    exists added,
      arbitrage_opportunities (run_calls self calls)
      = arbitrage_opportunities self ++ added
      /\ (List.length added
          <= List.length calls - List.length (ingested calls))%nat.
Proof.
  intros self calls. revert self. unfold run_calls, ingested.
  induction calls as [|[u|now] calls IH]; intros self;
    cbn [fold_left apply_call flat_map app List.length].
  - exists []. now rewrite app_nil_r.
  - destruct (IH (apply_update self u)) as (added & E & L).
    exists added. split; [exact E|]. lia.
  - destruct (IH (fst (generate_arbitrage_signal self now))) as (added & E & L).
    assert (Hle : (List.length
                     (flat_map (fun c => match c with Ingest u => [u] | Scan _ => [] end)
                        calls)
                   <= List.length calls)%nat).
    { clear. induction calls as [|[u|n] calls IH]; cbn; lia. }
    unfold generate_arbitrage_signal in E |- *.
    destruct (all_opportunities self now) as [|first rest]; cbn [fst] in E |- *.
    + exists added. split; [exact E|]. lia.
    + cbn [arbitrage_opportunities] in E. rewrite <- app_assoc in E.
      eexists. split; [exact E|]. cbn [app List.length]. lia.
Qed.

End AllScans.

(** ** What a quote does not influence *)

Section Isolation.
Local Open Scope float_scope.

Lemma fold_left_pointwise {A B} (f g : A -> B -> A) l :
  (forall a b, f a b = g a b) ->
  forall a, fold_left f l a = fold_left g l a.
Proof.
  intros H. induction l as [|b r IH]; intros a; simpl; auto.
  now rewrite H, IH.
Qed.

(** X13: a quote pushed for one symbol leaves the cross-exchange scan of
    every other symbol as it was. *)
Theorem cross_exchange_scan_other_symbol :
  forall self now exchange symbol bid ask volume now' symbol',
    symbol <> symbol' ->
    find_cross_exchange_arbitrage
      (update_price_data self now exchange symbol bid ask volume) now' symbol'
    = find_cross_exchange_arbitrage self now' symbol'.
Proof.
  intros self now exchange symbol bid ask volume now' symbol' Hne.
  unfold find_cross_exchange_arbitrage.
  assert (E : exchange_prices
                (update_price_data self now exchange symbol bid ask volume) symbol'
              = exchange_prices self symbol').
  { unfold exchange_prices. cbn [exchanges update_price_data].
    apply fold_left_pointwise. intros acc e. unfold add_quote.
    now rewrite latest_update_other by auto. }
  rewrite E. reflexivity.
Qed.

Lemma cross_exchange_scan_other_symbol_witness :
  find_cross_exchange_arbitrage
    (update_price_data two_exchange_state 9 "OKX" "ETH-USDT" 3 4 5) 5 "BTC-USDT"
  = find_cross_exchange_arbitrage two_exchange_state 5 "BTC-USDT".
Proof.
  apply (cross_exchange_scan_other_symbol two_exchange_state 9 "OKX" "ETH-USDT" 3 4 5
           5 "BTC-USDT").
  discriminate.
Defined.

Lemma price_data_update_other self now exchange symbol bid ask volume exchange' :
  exchange <> exchange' ->
  Py.dict_get (price_data (update_price_data self now exchange symbol bid ask volume))
    exchange'
  = Py.dict_get (price_data self) exchange'.
Proof.
  intros Hne. unfold update_price_data; cbn [price_data].
  now rewrite dict_get_set_other, dict_ensure_other by assumption.
Qed.

(** X14: the triangular scan and the future-spot scan read OKX only: a
    quote pushed for any other exchange leaves their results as they
    were. *)
Theorem okx_scans_ignore_other_exchanges :
  forall self now exchange symbol bid ask volume now' base symbol',
    exchange <> "OKX" ->
    find_triangular_arbitrage
      (update_price_data self now exchange symbol bid ask volume) now' base
    = find_triangular_arbitrage self now' base
    /\ find_future_spot_arbitrage
         (update_price_data self now exchange symbol bid ask volume) now' symbol'
       = find_future_spot_arbitrage self now' symbol'.
Proof.
  intros self now exchange symbol bid ask volume now' base symbol' Hne. split.
  - unfold find_triangular_arbitrage.
    rewrite price_data_update_other by assumption. reflexivity.
  - unfold find_future_spot_arbitrage, future_spot_step.
    rewrite !latest_update_other by auto. reflexivity.
Qed.

Lemma okx_scans_ignore_other_exchanges_witness :
  find_triangular_arbitrage
    (update_price_data (triangle_state 1.5) 9 "Binance" "ETH-BTC" 3 4 5) 5 "USDT"
  = find_triangular_arbitrage (triangle_state 1.5) 5 "USDT"
  /\ find_future_spot_arbitrage
       (update_price_data (triangle_state 1.5) 9 "Binance" "ETH-BTC" 3 4 5) 5 "BTC-USDT"
     = find_future_spot_arbitrage (triangle_state 1.5) 5 "BTC-USDT".
Proof.
  apply (okx_scans_ignore_other_exchanges (triangle_state 1.5) 9 "Binance" "ETH-BTC"
           3 4 5 5 "USDT" "BTC-USDT").
  discriminate.
Defined.

End Isolation.

Section SymbolUniverse.
Context {np : NumPy}.

(** X15: a scan looks for cross-exchange opportunities in six symbols only:
    every cross-exchange opportunity it finds is for one of them, whatever
    other symbols the exchanges quote. *)
Theorem cross_exchange_symbols_of_a_scan :
  forall self now,
    Forall
      (fun o =>
         ArbitrageOpportunity.type o = "cross_exchange" ->
         In (ArbitrageOpportunity.symbol o)
           ["BTC-USDT"; "ETH-USDT"; "BNB-USDT"; "ADA-USDT"; "SOL-USDT"; "XRP-USDT"])
      (all_opportunities self now).
Proof.
  intros self now. apply Forall_forall. intros o H Ht.
  unfold all_opportunities in H.
  apply in_app_or in H. destruct H as [H|H].
  - apply in_flat_map in H. destruct H as (symbol & Hs & H).
    apply in_app_or in H. destruct H as [H|H].
    + apply find_cross_exchange_arbitrage_in in H.
      destruct H as (buy & sell & _ & _ & H).
      apply cross_exchange_step_emits_all in H.
      destruct H as (_ & -> & _). exact Hs.
    + apply find_future_spot_arbitrage_in, future_spot_step_emits in H.
      destruct H as (spot & future & threshold & _ & _ & _ & _ & Ht' & _).
      rewrite Ht' in Ht. discriminate.
  - apply in_app_or in H. destruct H as [H|H].
    + apply find_triangular_arbitrage_in in H.
      destruct H as (prices & symbol1 & symbol2 & H).
      apply triangular_step_emits in H.
      destruct H as (_ & price1 & price2 & cross & threshold & _ & _ & _ & _ & _ & _ & ->).
      discriminate.
    + apply find_statistical_arbitrage_in in H. destruct H as (exchange & _ & H).
      apply statistical_step_emits_all in H.
      destruct H as (price1 & price2 & hist1 & hist2 & threshold & H).
      cbv zeta in H.
      destruct H as (_ & _ & _ & _ & _ & _ & _ & _ & _ & _ & Ht' & _).
      rewrite Ht' in Ht. discriminate.
Qed.

End SymbolUniverse.
